(** * Hydrointel: schema normalisation, feature extraction and serving logic

    A shallow embedding of
      - [backend/src/datasets/data_combiner.py] (combine_and_clean_data and
        the training prologue),
      - [backend/src/ml/trainer.py] (feature/target extraction),
      - [backend/src/server.py] (startup and the three JSON handlers).

    pandas frames are modelled by their column index and their records;
    float64 cells are modelled by rationals, the missing value (NaN, NaT) by
    a constructor of its own.  The CSV reader and writer, the date parser,
    the date formatter and the regressor are the collaborators the code
    calls into; they are variables of the sections that use them. *)

From Stdlib Require Import List String Ascii Bool Arith ZArith QArith Lia Permutation.
Import ListNotations.

Close Scope Q_scope.
Local Open Scope string_scope.
Local Open Scope list_scope.


(* ================================================================== *)
(** ** Exceptions *)

Inductive exn : Type :=
| KeyError | InvalidIndexError | ParserError | TypeError | ValueError
| IndexError | AttributeError.

Inductive result (A : Type) : Type :=
| Ok (a : A)
| Raise (e : exn).

Arguments Ok {A} a.
Arguments Raise {A} e.

Definition bind {A B : Type} (m : result A) (k : A -> result B) : result B :=
  match m with
  | Ok a => k a
  | Raise e => Raise e
  end.

Notation "x <- m ;; k" := (bind m (fun x => k))
  (at level 61, m at next level, right associativity).

Fixpoint mapM {A B : Type} (f : A -> result B) (l : list A) : result (list B) :=
  match l with
  | [] => Ok []
  | a :: l' => b <- f a ;; bs <- mapM f l' ;; Ok (b :: bs)
  end.

(* ================================================================== *)
(** ** Cells, records and frames *)

(** A cell of a frame: a float, a string, a parsed timestamp, or missing. *)
Inductive cell : Type :=
| CNum (q : Q)
| CStr (s : string)
| CDate (t : Z)
| CNaN.

Definition isna (c : cell) : bool :=
  match c with CNaN => true | _ => false end.

(** One record: every column label paired with the cell of that row. *)
Definition row : Type := list (string * cell).

Record DataFrame : Type := mkDF {
  columns : list string;
  rows : list row
}.

Definition list_string_eqb (a b : list string) : bool :=
  if list_eq_dec string_dec a b then true else false.

(** Every record of a frame carries the frame's labels, in order. *)
Definition well_formed (df : DataFrame) : bool :=
  forallb (fun r => list_string_eqb (map fst r) (columns df)) (rows df).

(** [c in df.columns] *)
Definition contains (c : string) (df : DataFrame) : bool :=
  existsb (String.eqb c) (columns df).

(** First cell of a record under label [c]. *)
Fixpoint lookup (c : string) (r : row) : option cell :=
  match r with
  | [] => None
  | (l, v) :: r' => if String.eqb c l then Some v else lookup c r'
  end.

Definition value (c : string) (r : row) : cell :=
  match lookup c r with Some v => v | None => CNaN end.

(** Apply [f] to the cells of column [c], leaving the others. *)
Definition map_cell (c : string) (f : cell -> cell) (p : string * cell)
  : string * cell :=
  if String.eqb c (fst p) then (fst p, f (snd p)) else p.

Definition map_column (c : string) (f : cell -> cell) (df : DataFrame)
  : DataFrame :=
  {| columns := columns df; rows := map (map (map_cell c f)) (rows df) |}.

(** [df[c] = v] with a scalar [v]: overwrite the column when the label is
    there, append a new last column otherwise. *)
Definition setitem (c : string) (v : cell) (df : DataFrame) : DataFrame :=
  if contains c df then map_column c (fun _ => v) df
  else {| columns := columns df ++ [c];
          rows := map (fun r => r ++ [(c, v)]) (rows df) |}.

Definition relabel (a b l : string) : string :=
  if String.eqb l a then b else l.

(** [df.rename(columns={a: b}, inplace=True)]; labels are not checked for
    clashes. *)
Definition rename (a b : string) (df : DataFrame) : DataFrame :=
  {| columns := map (relabel a b) (columns df);
     rows := map (map (fun p => (relabel a b (fst p), snd p))) (rows df) |}.

(** The cells a list of labels selects from one record: for each requested
    label, every entry that carries it. *)
Definition pick (cs : list string) (r : row) : row :=
  flat_map (fun c => filter (fun p => String.eqb c (fst p)) r) cs.

(** [df[cs]] with a list of labels: KeyError when one is absent; a label
    that occurs several times in the frame selects all its columns. *)
Definition getitem_list (cs : list string) (df : DataFrame) : result DataFrame :=
  if forallb (fun c => contains c df) cs
  then Ok {| columns := flat_map (fun c => filter (String.eqb c) (columns df)) cs;
             rows := map (pick cs) (rows df) |}
  else Raise KeyError.

(** [df[c]] as a series of cells (the first column under [c]). *)
Definition getitem (c : string) (df : DataFrame) : result (list cell) :=
  if contains c df then Ok (map (value c) (rows df)) else Raise KeyError.

(** [pd.DataFrame([d])] for a dict [d]: one record, columns in key order
    (one record and no column for the empty dict). *)
Definition from_record (d : row) : DataFrame :=
  {| columns := map fst d; rows := [d] |}.

(** [df.dropna()]: keep the records without any missing cell. *)
Definition complete (r : row) : bool :=
  forallb (fun p => negb (isna (snd p))) r.

Definition dropna (df : DataFrame) : DataFrame :=
  {| columns := columns df; rows := filter complete (rows df) |}.

(** [df.dropna(subset=[c])] *)
Definition dropna_subset (c : string) (df : DataFrame) : DataFrame :=
  {| columns := columns df;
     rows := filter (fun r => negb (isna (value c r))) (rows df) |}.

Fixpoint has_dup (l : list string) : bool :=
  match l with
  | [] => false
  | a :: l' => existsb (String.eqb a) l' || has_dup l'
  end.

Fixpoint dedup (seen l : list string) : list string :=
  match l with
  | [] => []
  | a :: l' => if existsb (String.eqb a) seen then dedup seen l'
               else a :: dedup (a :: seen) l'
  end.

(** [pd.concat(frames, ignore_index=True)].  Frames with one and the same
    column index are stacked as they are.  Otherwise every frame is
    reindexed on the union of the labels (first appearance first, absent
    cells missing), which pandas refuses for a frame whose labels repeat. *)
Definition concat (frames : list DataFrame) : result DataFrame :=
  match frames with
  | [] => Raise ValueError
  | f0 :: rest =>
      if forallb (fun f => list_string_eqb (columns f) (columns f0)) rest
      then Ok {| columns := columns f0; rows := flat_map rows frames |}
      else if existsb (fun f => has_dup (columns f)) frames
      then Raise InvalidIndexError
      else
        let union := dedup [] (flat_map columns frames) in
        Ok {| columns := union;
              rows := map (fun r => map (fun c => (c, value c r)) union)
                          (flat_map rows frames) |}
  end.

(* ================================================================== *)
(** ** data_combiner.py: the normaliser *)

(** [cols], line 48. *)
Definition cols : list string :=
  ["Date"; "City"; "Water_Level_m"; "Lat"; "Long"; "Rainfall_mm";
   "Temperature_C"; "pH"; "Dissolved_Oxygen_mg_L"].

(** Body of the loops of lines 51-53 and of server.py lines 59-61:
    [if col not in df.columns: df[col] = 0.0]. *)
Definition ensure_column (df : DataFrame) (col : string) : DataFrame :=
  if contains col df then df else setitem col (CNum 0) df.

(** Lines 39-55: what the loop body does to one parsed table. *)
Definition normalize (city_name : string) (df : DataFrame) : result DataFrame :=
  let df := setitem "City" (CStr city_name) df in
  let df := if contains "WL" df then rename "WL" "WaterLevel" df else df in
  let df := if contains "WaterLevel" df
            then rename "WaterLevel" "Water_Level_m" df else df in
  let df := fold_left ensure_column cols df in
  getitem_list cols df.

(** [name.split('_')[0]] *)
Fixpoint before_underscore (s : string) : string :=
  match s with
  | EmptyString => EmptyString
  | String a s' =>
      if Ascii.eqb a "_"%char then EmptyString
      else String a (before_underscore s')
  end.

Definition ends_with (suffix s : string) : bool :=
  let n := String.length s in
  let m := String.length suffix in
  (m <=? n)%nat && String.eqb (substring (n - m) m s) suffix.

Definition has_substring (sub s : string) : bool :=
  match index 0 sub s with Some _ => true | None => false end.

(** A file name matches the glob pattern [*_detailed_groundwater_data*.csv]
    of line 25: it ends in [.csv], the text before that suffix contains
    [_detailed_groundwater_data], and it is not a dot file. *)
Definition glob_match (name : string) : bool :=
  negb (prefix "." name)
  && ends_with ".csv" name
  && has_substring "_detailed_groundwater_data"
       (substring 0 (String.length name - 4) name).

(** Line 67: the name of the output inside the raw directory. *)
Definition output_name : string := "combined_city_data.csv".

Section Combiner.

(** The tabular file reader and writer. *)
Variable content : Type.
Variable read_csv : content -> result DataFrame.
Variable to_csv : DataFrame -> content.

(** The raw directory as [glob] lists it: file names with their contents. *)
Definition directory : Type := list (string * content).

Fixpoint write_file (name : string) (c : content) (d : directory) : directory :=
  match d with
  | [] => [(name, c)]
  | (n, c') :: d' =>
      if String.eqb n name then (n, c) :: d'
      else (n, c') :: write_file name c d'
  end.

(** Lines 36-56, the body of [try]. *)
Definition process_file (f : string * content) : result DataFrame :=
  df <- read_csv (snd f) ;;
  normalize (before_underscore (fst f)) df.

(** Lines 34-58: a file whose processing raises is reported and skipped. *)
Definition process_all (all_files : directory) : list DataFrame :=
  fold_left
    (fun combined_data f =>
       match process_file f with
       | Ok df => combined_data ++ [df]
       | Raise _ => combined_data
       end)
    all_files [].

(** [combine_and_clean_data]: the raw directory ([None] when it does not
    exist) before the call; the directory after it and the returned
    path, or the exception that escapes. *)
Definition combine_and_clean_data (raw : option directory)
  : result (option directory * option string) :=
  match raw with
  | None => Ok (None, None)
  | Some d =>
      let all_files := filter (fun f => glob_match (fst f)) d in
      match all_files with
      | [] => Ok (Some d, None)
      | _ =>
          match process_all all_files with
          | [] => Ok (Some d, None)
          | combined_data =>
              final_df <- concat combined_data ;;
              Ok (Some (write_file output_name (to_csv final_df) d),
                  Some output_name)
          end
      end
  end.

End Combiner.

Arguments write_file {content} name c d.
Arguments process_file {content} read_csv f.
Arguments process_all {content} read_csv all_files.
Arguments combine_and_clean_data {content} read_csv to_csv raw.

(* ================================================================== *)
(** ** trainer.py (and the training prologue of data_combiner.py) *)

(** The six feature columns, in the order the model is trained on. *)
Definition required_cols : list string :=
  ["Lat"; "Long"; "Rainfall_mm"; "Temperature_C"; "pH"; "Dissolved_Oxygen_mg_L"].

(** trainer.py lines 21-26: [df.dropna(inplace=True)], then the feature
    frame and the target series. *)
Definition extract (df : DataFrame) : result (DataFrame * list cell) :=
  let df := dropna df in
  features <- getitem_list required_cols df ;;
  target <- getitem "Water_Level_m" df ;;
  Ok (features, target).

(* ================================================================== *)
(** ** server.py *)

(** A float64 as the regressor sees it; [None] is NaN. *)
Definition float : Type := option Q.

(** The loaded model: one prediction for one feature vector. *)
Definition regressor : Type := list float -> Q.

Definition as_float (c : cell) : result float :=
  match c with
  | CNum q => Ok (Some q)
  | CNaN => Ok None
  | _ => Raise ValueError
  end.

Definition cell_of_float (x : float) : cell :=
  match x with Some q => CNum q | None => CNaN end.

(** [model.predict(df)]: one prediction per record; a cell that is not a
    float is refused. *)
Definition model_predict (m : regressor) (df : DataFrame) : result (list Q) :=
  X <- mapM (fun r => mapM as_float (map snd r)) (rows df) ;;
  Ok (map m X).

(** [prediction[0]] *)
Definition first (l : list Q) : result Q :=
  match l with
  | [] => Raise IndexError
  | p :: _ => Ok p
  end.

Definition lower_ascii (a : ascii) : ascii :=
  let n := nat_of_ascii a in
  if (65 <=? n)%nat && (n <=? 90)%nat then ascii_of_nat (n + 32) else a.

(** [str.lower()] on ASCII text. *)
Fixpoint lower (s : string) : string :=
  match s with
  | EmptyString => EmptyString
  | String a s' => String (lower_ascii a) (lower s')
  end.

(** [series.str]: pandas grants the accessor to a text series only and
    raises AttributeError otherwise.  A frame carries no dtype here, so the
    series is judged by the cells it holds: it is text when one of them is
    a string, and when there is none at all (the reader gives a column
    without cells the text dtype); a series of numbers or of missing values
    only is refused.  This is pandas' judgement for every column whose
    cells were all read as strings and for every column that still holds a
    string, whichever of its records were dropped in between. *)
Definition is_string (c : cell) : bool :=
  match c with CStr _ => true | _ => false end.

Definition str_accessor (cs : list cell) : result unit :=
  match cs with
  | [] => Ok tt
  | _ :: _ => if existsb is_string cs then Ok tt else Raise AttributeError
  end.

(** One entry of [historical_data['City'].str.lower() == city.lower()] once
    the accessor is granted; a cell that is not a string lowers to a
    missing value, which equals nothing. *)
Definition city_matches (city : string) (r : row) : bool :=
  match lookup "City" r with
  | Some (CStr s) => String.eqb (lower s) (lower city)
  | _ => false
  end.

(** The floats of a series, missing cells skipped; a series that holds
    anything else has no mean. *)
Fixpoint numeric (cs : list cell) : result (list Q) :=
  match cs with
  | [] => Ok []
  | CNum q :: cs' => qs <- numeric cs' ;; Ok (q :: qs)
  | CNaN :: cs' => numeric cs'
  | _ :: _ => Raise TypeError
  end.

Definition Qsum (l : list Q) : Q := fold_right Qplus 0%Q l.

Definition Qmean (l : list Q) : Q :=
  Qdiv (Qsum l) (inject_Z (Z.of_nat (List.length l))).

(** [Series.mean()] *)
Definition mean (cs : list cell) : result float :=
  qs <- numeric cs ;;
  Ok (match qs with [] => None | _ => Some (Qmean qs) end).

Inductive message : Type :=
| ModelNotLoaded | FeaturesKeyMissing | MissingFeature | PredictError
| DataNotLoaded | CityRequired | CityNotFound | CityPredictError
| InternalServerError.

Inductive body : Type :=
| Error (m : message)
| Prediction (p : Q)
| Records (l : list (option string * cell)).

Definition response : Type := (nat * body)%type.

(** The globals [model] and [historical_data]. *)
Record server : Type := mkServer {
  model : option regressor;
  historical_data : option DataFrame
}.

(** What is found at MODEL_PATH and at DATASET_PATH when the process starts. *)
Inductive artifact : Type :=
| NoArtifact | BadArtifact | Artifact (m : regressor).

Inductive dataset_file : Type :=
| NoDataset | BadDataset | Dataset (df : DataFrame).

(** Lines 54-63: the feature frame of a point prediction. *)
Definition prepare_features (features : row) : result DataFrame :=
  let features_df := from_record features in
  let features_df := fold_left ensure_column required_cols features_df in
  getitem_list required_cols features_df.

(** [predict], lines 45-71.  The request body is [None] when it is empty or
    has no [features] key, and the feature dict otherwise. *)
Definition predict (st : server) (data : option row) : response :=
  match model st with
  | None => (500, Error ModelNotLoaded)
  | Some m =>
      match data with
      | None => (400, Error FeaturesKeyMissing)
      | Some features =>
          match (features_df <- prepare_features features ;;
                 prediction <- model_predict m features_df ;;
                 p <- first prediction ;;
                 Ok (200, Prediction p)) with
          | Ok r => r
          | Raise KeyError => (400, Error MissingFeature)
          | Raise _ => (500, Error PredictError)
          end
      end
  end.

(** An exception no handler catches is answered by the framework. *)
Definition uncaught (r : result response) : response :=
  match r with
  | Ok resp => resp
  | Raise _ => (500, Error InternalServerError)
  end.

(** [predict_by_city], lines 73-100; [city] is [data.get('city')]. *)
Definition predict_by_city (st : server) (city : option string) : response :=
  match model st with
  | None => (500, Error ModelNotLoaded)
  | Some m =>
      match historical_data st with
      | None => (500, Error DataNotLoaded)
      | Some hd =>
          match city with
          | None | Some EmptyString => (400, Error CityRequired)
          | Some city =>
              uncaught
                (city_col <- getitem "City" hd ;;
                 _ <- str_accessor city_col ;;
                 let city_data :=
                   {| columns := columns hd;
                      rows := filter (city_matches city) (rows hd) |} in
                 match rows city_data with
                 | [] => Ok (404, Error CityNotFound)
                 | _ =>
                     Ok match
                         (sel <- getitem_list required_cols city_data ;;
                          avg_features <-
                            mapM (fun c =>
                                    x <- mean (map (value c) (rows sel)) ;;
                                    Ok (c, cell_of_float x))
                                 (columns sel) ;;
                          let features_df := from_record avg_features in
                          prediction <- model_predict m features_df ;;
                          p <- first prediction ;;
                          Ok (200, Prediction p)) with
                       | Ok r => r
                       | Raise _ => (500, Error CityPredictError)
                       end
                 end)
          end
      end
  end.

Section Dates.

(** The date parser ([None] where [errors='coerce'] gives NaT) and the
    formatter [strftime('%Y-%m-%d')] ([None] where it raises ValueError). *)
Variable to_datetime : cell -> option Z.
Variable strftime : Z -> option string.

Definition coerce_date (c : cell) : cell :=
  match to_datetime c with Some t => CDate t | None => CNaN end.

(** Lines 34-43.  The frame is bound to the global before its dates are
    parsed, so a table without a [Date] column stays loaded as read. *)
Definition load_dataset (f : dataset_file) : option DataFrame :=
  match f with
  | Dataset df =>
      if contains "Date" df
      then Some (dropna_subset "Date" (map_column "Date" coerce_date df))
      else Some df
  | _ => None
  end.

(** Lines 25-32. *)
Definition load_model (a : artifact) : option regressor :=
  match a with
  | Artifact m => Some m
  | _ => None
  end.

Definition startup (a : artifact) (f : dataset_file) : server :=
  {| model := load_model a; historical_data := load_dataset f |}.

(** Lines 116-124: the date of one record as it is serialised. *)
Definition format_date (c : cell) : option string :=
  match c with
  | CDate t => strftime t
  | _ => None
  end.

Definition historical_record (r : row) : option string * cell :=
  (format_date (value "Date" r), value "Water_Level_m" r).

(** [get_historical_data], lines 102-125; [city] is
    [request.args.get('city')]. *)
Definition get_historical_data (st : server) (city : option string) : response :=
  match historical_data st with
  | None => (500, Error DataNotLoaded)
  | Some hd =>
      match city with
      | None | Some EmptyString => (400, Error CityRequired)
      | Some city =>
          uncaught
            (city_col <- getitem "City" hd ;;
             _ <- str_accessor city_col ;;
             let city_data :=
               {| columns := columns hd;
                  rows := filter (city_matches city) (rows hd) |} in
             match rows city_data with
             | [] => Ok (404, Error CityNotFound)
             | _ =>
                 sel <- getitem_list ["Date"; "Water_Level_m"] city_data ;;
                 Ok (200, Records (map historical_record (rows sel)))
             end)
      end
  end.

(** The records a city query is answered from: those of the combined
    dataset whose date parsed at load time and whose city matches. *)
Definition parsed (r : row) : bool :=
  match to_datetime (value "Date" r) with Some _ => true | None => false end.

Definition served (city : string) (df : DataFrame) : list row :=
  filter (fun r => parsed r && city_matches city r) (rows df).

(** The pair returned for one of them. *)
Definition served_record (r : row) : option string * cell :=
  (match to_datetime (value "Date" r) with
   | Some t => strftime t
   | None => None
   end,
   value "Water_Level_m" r).

End Dates.

(* ================================================================== *)
(** ** The behaviour the specification describes *)

(** The labels under which a source may carry the water level. *)
Definition is_level_alias (l : string) : bool :=
  String.eqb l "WL" || String.eqb l "WaterLevel" || String.eqb l "Water_Level_m".

Definition water_level (r : row) : cell :=
  match find (fun p => is_level_alias (fst p)) r with
  | Some p => snd p
  | None => CNum 0
  end.

(** The shared default policy: a name that is absent stands for 0.0. *)
Definition default_missing (features : row) (c : string) : cell :=
  match lookup c features with
  | Some v => v
  | None => CNum 0
  end.

(** The canonical record of one source record: the city label, the water
    level under its canonical name, and every other canonical field taken
    from the source or defaulted. *)
Definition canonical_cell (city_name : string) (r : row) (c : string) : cell :=
  if String.eqb c "City" then CStr city_name
  else if String.eqb c "Water_Level_m" then water_level r
  else default_missing r c.

Definition canonical_row (city_name : string) (r : row) : row :=
  map (fun c => (c, canonical_cell city_name r c)) cols.

(** The completed feature assignment of a request. *)
Definition completed (features : row) : row :=
  map (fun c => (c, default_missing features c)) required_cols.

(** The cells of a record that are floats. *)
Definition is_number (c : cell) : bool :=
  match c with CNum _ => true | _ => false end.

Definition number (c : cell) : Q :=
  match c with CNum q => q | _ => 0%Q end.

(** The feature vector of a record, and the per-feature arithmetic mean of a
    non-empty list of records. *)
Definition feature_means (records : list row) : list float :=
  map (fun c => Some (Qmean (map (fun r => number (value c r)) records)))
      required_cols.

(** The seven fields training needs. *)
Definition required_fields : list string := "Water_Level_m" :: required_cols.

Definition has_required (r : row) : bool :=
  forallb (fun c => negb (isna (value c r))) required_fields.

(** The labels of [cs] a frame lacks, and what both renamings of lines
    42-45 together do to one label. *)
Definition absent (df : DataFrame) (cs : list string) : list string :=
  filter (fun c => negb (contains c df)) cs.

Definition relabel_level (l : string) : string :=
  relabel "WaterLevel" "Water_Level_m" (relabel "WL" "WaterLevel" l).

(* ================================================================== *)
(** ** Stand-ins for the collaborators, used by the examples *)

(** A file is the table the reader parses it to, or unreadable. *)
Definition stub_read (c : option DataFrame) : result DataFrame :=
  match c with
  | Some df => Ok df
  | None => Raise ParserError
  end.

Definition stub_write (df : DataFrame) : option DataFrame := Some df.

Definition is_digit (a : ascii) : bool :=
  let n := nat_of_ascii a in (48 <=? n)%nat && (n <=? 57)%nat.

Definition digit (a : ascii) : Z := Z.of_nat (nat_of_ascii a - 48).

(** A parser for dates written YYYY-MM-DD; the timestamp is the number
    YYYYMMDD. *)
Definition stub_to_datetime (c : cell) : option Z :=
  match c with
  | CStr (String y1 (String y2 (String y3 (String y4 (String "-"
      (String m1 (String m2 (String "-" (String d1 (String d2
      EmptyString)))))))))) =>
      if forallb is_digit [y1; y2; y3; y4; m1; m2; d1; d2]
      then Some (fold_left (fun acc a => acc * 10 + digit a)
                           [y1; y2; y3; y4; m1; m2; d1; d2] 0)%Z
      else None
  | _ => None
  end.

Definition digit_char (z : Z) : ascii := ascii_of_nat (48 + Z.to_nat (z mod 10)).

(** Formats the years 1000 to 9999 and refuses the others. *)
Definition stub_strftime (t : Z) : option string :=
  if ((10000000 <=? t) && (t <=? 99999999))%Z
  then Some (String (digit_char (t / 10000000))
            (String (digit_char (t / 1000000))
            (String (digit_char (t / 100000))
            (String (digit_char (t / 10000))
            (String "-"
            (String (digit_char (t / 1000))
            (String (digit_char (t / 100))
            (String "-"
            (String (digit_char (t / 10))
            (String (digit_char t) EmptyString))))))))))
  else None.

(** A regressor that echoes its first feature. *)
Definition echo_first : regressor :=
  fun v => match v with Some q :: _ => q | _ => 0%Q end.

(** A canonical record with the given date, city, level and latitude. *)
Definition sample_record (date : cell) (city : string) (level lat : Q) : row :=
  [("Date", date); ("City", CStr city); ("Water_Level_m", CNum level);
   ("Lat", CNum lat); ("Long", CNum 20); ("Rainfall_mm", CNum 5);
   ("Temperature_C", CNum 30); ("pH", CNum 7);
   ("Dissolved_Oxygen_mg_L", CNum 6)].

(** *** Sample tables *)

(** A source table that has dates and water levels under [WL], and no city
    column (the city comes from the file name). *)
Definition levels_only : DataFrame :=
  {| columns := ["Date"; "WL"];
     rows := [[("Date", CStr "2021-03-01"); ("WL", CNum 4)];
              [("Date", CStr "2021-03-02"); ("WL", CNum 5)]] |}.

(** A source table that carries the water level twice, as [WL] and as
    [Water_Level_m]. *)
Definition level_twice : DataFrame :=
  {| columns := ["Date"; "WL"; "Water_Level_m"];
     rows := [[("Date", CStr "2021-03-01"); ("WL", CNum 4);
               ("Water_Level_m", CNum 4)]] |}.

(** A raw directory with both of them. *)
Definition two_sources : list (string * option DataFrame) :=
  [("Pune_detailed_groundwater_data.csv", Some levels_only);
   ("Agra_detailed_groundwater_data.csv", Some level_twice)].

(** A raw directory with one good source, one unreadable one and an older
    combined file. *)
Definition three_files : list (string * option DataFrame) :=
  [("Pune_detailed_groundwater_data.csv", Some levels_only);
   ("Agra_detailed_groundwater_data.csv", None);
   ("combined_city_data.csv", Some levels_only)].

(** Two records of Pune, the second with a date that does not parse, and one
    of Agra. *)
Definition sample_dataset : DataFrame :=
  {| columns := cols;
     rows := [sample_record (CStr "2021-03-01") "Pune" 4 10;
              sample_record (CStr "n/a") "Pune" 5 12;
              sample_record (CStr "2021-03-01") "Agra" 6 27] |}.

(** A canonical record that lacks nothing but its date. *)
Definition undated_dataset : DataFrame :=
  {| columns := cols; rows := [sample_record CNaN "Pune" 4 10] |}.

(** A dataset whose only record of Pune has a date that does not parse. *)
Definition unparsed_only : DataFrame :=
  {| columns := cols;
     rows := [sample_record (CStr "n/a") "Pune" 5 12;
              sample_record (CStr "2021-03-01") "Agra" 6 27] |}.

(** Three records of Pune, the third with a date that does not parse, and
    one of Agra; the two dated records of Pune differ in latitude and
    longitude. *)
Definition pune_thrice : DataFrame :=
  {| columns := cols;
     rows := [sample_record (CStr "2021-03-01") "Pune" 4 10;
              map (map_cell "Long" (fun _ => CNum 24))
                  (sample_record (CStr "2021-03-02") "Pune" 5 12);
              sample_record (CStr "n/a") "Pune" 6 20;
              sample_record (CStr "2021-03-01") "Agra" 6 27] |}.

(** A regressor that adds up the features it is given. *)
Definition sum_features : regressor :=
  fun v => fold_right (fun x acc => match x with
                                    | Some q => Qplus q acc
                                    | None => acc
                                    end) 0%Q v.

(** A request that supplies the latitude only, and one that supplies the
    same latitude after a key the service does not know. *)
Definition lat_only : row := [("Lat", CNum (1297 # 100))].

Definition lat_and_more : row :=
  [("Station", CStr "P-17"); ("Lat", CNum (1297 # 100)); ("Long", CNum 0)].

(** The directory [three_files] after one run of the combiner. *)
Definition after_first_run : list (string * option DataFrame) :=
  match combine_and_clean_data stub_read stub_write (Some three_files) with
  | Ok (Some d, _) => d
  | _ => []
  end.

(* ================================================================== *)
(** ** The scripts around the extraction, and auxiliary notions *)

(** How the training script ends up before it splits the data: trainer.py
    lines 17-26 with the handlers of lines 85-90. *)
Inductive training_outcome : Type :=
| DatasetNotFound
| RequiredColumnMissing
| UnexpectedError
| Extracted (X : DataFrame) (y : list cell).

Definition trainer_prologue (f : dataset_file) : training_outcome :=
  match f with
  | NoDataset => DatasetNotFound
  | BadDataset => UnexpectedError
  | Dataset df =>
      match extract df with
      | Ok (X, y) => Extracted X y
      | Raise KeyError => RequiredColumnMissing
      | Raise _ => UnexpectedError
      end
  end.

(** A text without an underscore. *)
Fixpoint no_underscore (s : string) : bool :=
  match s with
  | EmptyString => true
  | String a s' => negb (Ascii.eqb a "_"%char) && no_underscore s'
  end.

(** The cells that are floats: a number or NaN. *)
Definition is_float_cell (c : cell) : bool :=
  match c with CNum _ | CNaN => true | _ => false end.

(** The mean of the floats that are present in a series; NaN when there is
    none. *)
Definition present_mean (cs : list cell) : float :=
  match filter is_number cs with
  | [] => None
  | qs => Some (Qmean (map number qs))
  end.

(** A dataset in which the second record of Pune has no latitude. *)
Definition gappy_dataset : DataFrame :=
  {| columns := cols;
     rows := [sample_record (CStr "2021-03-01") "Pune" 4 10;
              map (map_cell "Lat" (fun _ => CNaN))
                  (sample_record (CStr "2021-03-02") "Pune" 5 12)] |}.

(** A table that has cities and levels, and no date column. *)
Definition dateless_dataset : DataFrame :=
  {| columns := ["City"; "Water_Level_m"];
     rows := [[("City", CStr "Pune"); ("Water_Level_m", CNum 4)]] |}.

(* ================================================================== *)
(** * Proofs *)

(** ** Labels and lists *)

Lemma existsb_eqb_In (c : string) (L : list string) :
  existsb (String.eqb c) L = true <-> In c L.
Proof.
  rewrite existsb_exists. split.
  - intros [x [Hx He]]. apply String.eqb_eq in He. now subst.
  - intros H. exists c. split; [assumption | apply String.eqb_refl].
Qed.

Lemma existsb_eqb_not_In (c : string) (L : list string) :
  existsb (String.eqb c) L = false <-> ~ In c L.
Proof.
  rewrite <- existsb_eqb_In. destruct (existsb _ L); split; intros H;
    try reflexivity; try discriminate; try (now intros H'); now elim H.
Qed.

Lemma has_dup_NoDup (L : list string) : has_dup L = false <-> NoDup L.
Proof.
  induction L as [|a L IH]; simpl.
  - split; [constructor | reflexivity].
  - rewrite orb_false_iff, existsb_eqb_not_In, IH. split.
    + intros [H1 H2]. now constructor.
    + intros H. inversion H; subst. now split.
Qed.

Lemma list_string_eqb_eq (a b : list string) :
  list_string_eqb a b = true <-> a = b.
Proof.
  unfold list_string_eqb. destruct (list_eq_dec string_dec a b); split;
    intros H; try reflexivity; try assumption; try discriminate; contradiction.
Qed.

Lemma well_formed_Forall (df : DataFrame) :
  well_formed df = true <->
  Forall (fun r => map fst r = columns df) (rows df).
Proof.
  unfold well_formed. rewrite forallb_forall, Forall_forall.
  split; intros H r Hr; apply list_string_eqb_eq; auto.
Qed.

Lemma flat_map_single {A B : Type} (h : A -> B) (l : list A) :
  flat_map (fun a => [h a]) l = map h l.
Proof. induction l; simpl; congruence. Qed.

Lemma flat_map_ext_In {A B : Type} (f g : A -> list B) (l : list A) :
  (forall a, In a l -> f a = g a) -> flat_map f l = flat_map g l.
Proof.
  induction l as [|a l IH]; simpl; intros H; [reflexivity|].
  rewrite H by now left. f_equal. apply IH. intros; apply H; now right.
Qed.

(** A label that occurs at most once selects at most one entry. *)
Lemma filter_label_NoDup (c : string) (r : row) :
  NoDup (map fst r) ->
  filter (fun p => String.eqb c (fst p)) r =
  match lookup c r with Some v => [(c, v)] | None => [] end.
Proof.
  induction r as [|[l v] r IH]; simpl; intros H; [reflexivity|].
  inversion H as [|? ? Hnin Hnd]; subst.
  destruct (String.eqb_spec c l) as [->|Hne].
  - f_equal. rewrite IH by assumption.
    destruct (lookup l r) eqn:E; [|reflexivity].
    exfalso. apply Hnin. clear -E.
    induction r as [|[l' v'] r IH]; simpl in *; [discriminate|].
    destruct (String.eqb_spec l l'); [now left | right; auto].
  - now apply IH.
Qed.

Lemma filter_eqb_NoDup (c : string) (L : list string) :
  NoDup L ->
  filter (String.eqb c) L = if existsb (String.eqb c) L then [c] else [].
Proof.
  induction L as [|l L IH]; simpl; intros H; [reflexivity|].
  inversion H as [|? ? Hnin Hnd]; subst.
  destruct (String.eqb_spec c l) as [->|Hne]; simpl.
  - rewrite IH by assumption.
    apply existsb_eqb_not_In in Hnin. now rewrite Hnin.
  - now apply IH.
Qed.

Lemma lookup_In_labels (c : string) (r : row) :
  existsb (String.eqb c) (map fst r) = true <-> lookup c r <> None.
Proof.
  induction r as [|[l v] r IH]; simpl.
  - split; [discriminate | congruence].
  - destruct (String.eqb c l); simpl; [split; [discriminate | reflexivity]|].
    exact IH.
Qed.

(** ** The default loop *)

Lemma frame_eta (df : DataFrame) :
  {| columns := columns df; rows := rows df |} = df.
Proof. now destruct df. Qed.

(** The loop [for col in cs: if col not in df.columns: df[col] = 0.0]
    appends the absent labels, in the order of [cs], with 0.0 in every
    record. *)
Lemma ensure_columns_fold (cs : list string) :
  NoDup cs ->
  forall df,
    fold_left ensure_column cs df =
    {| columns := columns df ++ absent df cs;
       rows := map (fun r => r ++ map (fun c => (c, CNum 0)) (absent df cs))
                   (rows df) |}.
Proof.
  induction cs as [|a cs IH]; intros Hnd df.
  - simpl. rewrite app_nil_r.
    rewrite (map_ext _ (fun r => r)) by (intros; apply app_nil_r).
    rewrite map_id. now rewrite frame_eta.
  - inversion Hnd as [|? ? Hnin Hnd']; subst.
    simpl fold_left. rewrite IH by assumption.
    unfold ensure_column, absent. simpl filter.
    destruct (contains a df) eqn:E; simpl negb; cbv iota.
    + reflexivity.
    + unfold setitem. rewrite E. simpl columns. simpl rows.
      assert (Hf : filter (fun c => negb (contains c
                     {| columns := columns df ++ [a];
                        rows := map (fun r => r ++ [(a, CNum 0)]) (rows df) |})) cs
                   = filter (fun c => negb (contains c df)) cs).
      { apply filter_ext_in. intros c Hc. unfold contains. simpl.
        rewrite existsb_app. simpl. rewrite orb_false_r.
        destruct (String.eqb_spec c a) as [->|_]; [contradiction|].
        now rewrite orb_false_r. }
      rewrite Hf. f_equal.
      * now rewrite <- app_assoc.
      * rewrite map_map. apply map_ext. intros r. now rewrite <- app_assoc.
Qed.

Lemma filter_none {A : Type} (p : A -> bool) (l : list A) :
  (forall x, In x l -> p x = false) -> filter p l = [].
Proof.
  induction l as [|a l IH]; simpl; intros H; [reflexivity|].
  rewrite (H a) by now left. apply IH. intros; apply H; now right.
Qed.

Lemma filter_eqb_filter (c : string) (P : string -> bool) (cs : list string) :
  NoDup cs -> In c cs ->
  filter (String.eqb c) (filter P cs) = if P c then [c] else [].
Proof.
  induction cs as [|a cs IH]; intros Hnd Hin; [contradiction|].
  inversion Hnd as [|? ? Hnin Hnd']; subst. simpl.
  assert (Hrest : forall x, In x (filter P cs) -> String.eqb a x = false).
  { intros x Hx. apply filter_In in Hx. destruct Hx as [Hx _].
    destruct (String.eqb_spec a x); [subst; contradiction | reflexivity]. }
  destruct (String.eqb_spec c a) as [->|Hne].
  - destruct (P a); simpl; rewrite ?String.eqb_refl;
      rewrite (filter_none _ _ Hrest); reflexivity.
  - destruct Hin as [->|Hin]; [contradiction|].
    destruct (P a); simpl.
    + destruct (String.eqb_spec c a); [contradiction|]. now apply IH.
    + now apply IH.
Qed.

Lemma absent_filter_eqb (df : DataFrame) (cs : list string) (c : string) :
  NoDup cs -> In c cs ->
  filter (String.eqb c) (absent df cs) = if contains c df then [] else [c].
Proof.
  intros Hnd Hin. unfold absent. rewrite filter_eqb_filter by assumption.
  now destruct (contains c df).
Qed.

Lemma filter_map_comm {A B : Type} (p : B -> bool) (f : A -> B) (l : list A) :
  filter p (map f l) = map f (filter (fun a => p (f a)) l).
Proof.
  induction l as [|a l IH]; simpl; [reflexivity|].
  destruct (p (f a)); simpl; now rewrite IH.
Qed.

(** Filling the absent labels of [cs] and then selecting [cs] leaves, in a
    frame whose labels are distinct, exactly the labels [cs]; each record
    keeps the cells it had and gets 0.0 for the others. *)
Lemma select_filled (cs : list string) (df : DataFrame) :
  NoDup cs -> NoDup (columns df) -> well_formed df = true ->
  getitem_list cs (fold_left ensure_column cs df) =
  Ok {| columns := cs;
        rows := map (fun r => map (fun c => (c, default_missing r c)) cs)
                    (rows df) |}.
Proof.
  intros Hcs Hnd Hwf. rewrite ensure_columns_fold by assumption.
  unfold getitem_list. simpl columns. simpl rows.
  assert (Hall : forallb
            (fun c => contains c
               {| columns := columns df ++ absent df cs;
                  rows := map (fun r => r ++ map (fun c0 => (c0, CNum 0))
                                                 (absent df cs)) (rows df) |})
            cs = true).
  { apply forallb_forall. intros c Hc. unfold contains. simpl.
    rewrite existsb_app. apply orb_true_iff.
    destruct (existsb (String.eqb c) (columns df)) eqn:E; [now left|right].
    apply existsb_eqb_In. unfold absent. apply filter_In. split; [assumption|].
    unfold contains. now rewrite E. }
  rewrite Hall. f_equal. f_equal.
  - rewrite (flat_map_ext_In _ (fun c => [c])).
    + now rewrite flat_map_single, map_id.
    + intros c Hc. rewrite filter_app, filter_eqb_NoDup by assumption.
      rewrite absent_filter_eqb by assumption. unfold contains.
      now destruct (existsb (String.eqb c) (columns df)).
  - rewrite map_map. apply map_ext_in. intros r Hr.
    apply well_formed_Forall in Hwf. rewrite Forall_forall in Hwf.
    specialize (Hwf r Hr).
    unfold pick.
    rewrite (flat_map_ext_In _ (fun c => [(c, default_missing r c)])).
    + now rewrite flat_map_single.
    + intros c Hc. rewrite filter_app.
      rewrite filter_label_NoDup by (now rewrite Hwf).
      rewrite (filter_map_comm (fun p => String.eqb c (fst p))). simpl.
      rewrite absent_filter_eqb by assumption.
      unfold default_missing, contains. rewrite <- Hwf.
      pose proof (lookup_In_labels c r) as HL.
      destruct (lookup c r) as [v|].
      * destruct (existsb (String.eqb c) (map fst r)); [reflexivity|].
        exfalso. assert (false = true) by (apply HL; discriminate). discriminate.
      * destruct (existsb (String.eqb c) (map fst r)); [|reflexivity].
        exfalso. now apply (proj1 HL).
Qed.

(** ** Well-formed frames through the normaliser's steps *)

Lemma well_formed_setitem (c : string) (v : cell) (df : DataFrame) :
  well_formed df = true -> well_formed (setitem c v df) = true.
Proof.
  intros H. apply well_formed_Forall in H. apply well_formed_Forall.
  rewrite Forall_forall in *. unfold setitem.
  destruct (contains c df); simpl; intros r Hr;
    apply in_map_iff in Hr; destruct Hr as [r0 [<- Hr0]].
  - rewrite map_map. rewrite <- (H r0 Hr0). apply map_ext.
    intros p. unfold map_cell. now destruct (String.eqb c (fst p)).
  - rewrite map_app. simpl. now rewrite (H r0 Hr0).
Qed.

Lemma well_formed_rename (a b : string) (df : DataFrame) :
  well_formed df = true -> well_formed (rename a b df) = true.
Proof.
  intros H. apply well_formed_Forall in H. apply well_formed_Forall.
  rewrite Forall_forall in *. simpl. intros r Hr.
  apply in_map_iff in Hr. destruct Hr as [r0 [<- Hr0]].
  rewrite map_map. simpl. rewrite <- (H r0 Hr0). now rewrite map_map.
Qed.

(** Renaming a label the frame does not have changes nothing, so the two
    guards of lines 42 and 44 can be dropped. *)
Lemma rename_absent (a b : string) (df : DataFrame) :
  well_formed df = true -> contains a df = false -> rename a b df = df.
Proof.
  intros Hwf Hc. apply existsb_eqb_not_In in Hc.
  apply well_formed_Forall in Hwf. rewrite Forall_forall in Hwf.
  assert (Hid : forall l, In l (columns df) -> relabel a b l = l).
  { intros l Hl. unfold relabel.
    destruct (String.eqb_spec l a); [subst; contradiction | reflexivity]. }
  destruct df as [L R]. unfold rename. simpl in *. f_equal.
  - rewrite <- (map_id L) at 2. now apply map_ext_in.
  - rewrite <- (map_id R) at 2. apply map_ext_in. intros r Hr.
    rewrite <- (map_id r) at 2. apply map_ext_in. intros [l v] Hp. simpl.
    f_equal. apply Hid. rewrite <- (Hwf r Hr).
    apply in_map_iff. now exists (l, v).
Qed.

Lemma rename_guarded (a b : string) (df : DataFrame) :
  well_formed df = true ->
  (if contains a df then rename a b df else df) = rename a b df.
Proof.
  intros Hwf. destruct (contains a df) eqn:E; [reflexivity|].
  symmetry. now apply rename_absent.
Qed.

(** ** The normaliser on a table with distinct labels *)

Lemma relabel_level_alias (l : string) :
  relabel_level l = if is_level_alias l then "Water_Level_m" else l.
Proof.
  unfold relabel_level, relabel, is_level_alias.
  destruct (String.eqb_spec l "WL"); subst; simpl; [reflexivity|].
  destruct (String.eqb_spec l "WaterLevel"); subst; simpl; [reflexivity|].
  destruct (String.eqb_spec l "Water_Level_m"); subst; reflexivity.
Qed.

Lemma alias_unique (L : list string) (x y : string) :
  (List.length (filter is_level_alias L) <= 1)%nat ->
  In x L -> In y L -> is_level_alias x = true -> is_level_alias y = true ->
  x = y.
Proof.
  induction L as [|a L IH]; simpl; intros Hlen Hx Hy Ax Ay; [contradiction|].
  assert (Hnone : forall z, In z L -> is_level_alias z = true ->
                            (1 <= List.length (filter is_level_alias L))%nat).
  { intros z Hz Az. assert (Hin : In z (filter is_level_alias L))
      by (apply filter_In; now split).
    destruct (filter is_level_alias L); [contradiction | simpl; lia]. }
  destruct (is_level_alias a) eqn:Aa; simpl in Hlen.
  - destruct Hx as [->|Hx], Hy as [->|Hy]; try reflexivity.
    + specialize (Hnone _ Hy Ay). lia.
    + specialize (Hnone _ Hx Ax). lia.
    + specialize (Hnone _ Hx Ax). lia.
  - destruct Hx as [->|Hx]; [congruence|].
    destruct Hy as [->|Hy]; [congruence|]. now apply IH.
Qed.

Lemma relabel_level_NoDup (L : list string) :
  NoDup L -> (List.length (filter is_level_alias L) <= 1)%nat ->
  NoDup (map relabel_level L).
Proof.
  intros Hnd Hlen. apply NoDup_map_NoDup_ForallPairs; [|assumption].
  intros x y Hx Hy. rewrite !relabel_level_alias.
  destruct (is_level_alias x) eqn:Ax, (is_level_alias y) eqn:Ay; intros E.
  - now apply (alias_unique L).
  - subst y. discriminate.
  - subst x. discriminate.
  - assumption.
Qed.

Lemma lookup_relabel (f : string -> string) (c : string) (r : row) :
  lookup c (map (fun p => (f (fst p), snd p)) r) =
  option_map snd (find (fun p => String.eqb c (f (fst p))) r).
Proof.
  induction r as [|[l v] r IH]; simpl; [reflexivity|].
  destruct (String.eqb c (f l)); [reflexivity | assumption].
Qed.

Lemma lookup_find (c : string) (r : row) :
  lookup c r = option_map snd (find (fun p => String.eqb c (fst p)) r).
Proof.
  induction r as [|[l v] r IH]; simpl; [reflexivity|].
  destruct (String.eqb c l); [reflexivity | assumption].
Qed.

Lemma find_ext {A : Type} (p q : A -> bool) (l : list A) :
  (forall a, p a = q a) -> find p l = find q l.
Proof.
  intros H. induction l as [|a l IH]; simpl; [reflexivity|].
  rewrite H, IH. reflexivity.
Qed.

(** Overwriting the cells of column [c] is invisible to a search that does
    not accept the label [c]. *)
Lemma find_map_cell (P : string -> bool) (c : string) (f : cell -> cell) (r : row) :
  P c = false ->
  option_map snd (find (fun p => P (fst p)) (map (map_cell c f) r)) =
  option_map snd (find (fun p => P (fst p)) r).
Proof.
  intros Hc. induction r as [|[l v] r IH]; [reflexivity|].
  cbn [map find].
  replace (map_cell c f (l, v)) with (if String.eqb c l then (l, f v) else (l, v))
    by reflexivity.
  destruct (String.eqb_spec c l) as [<-|Hne]; cbn [fst].
  - now rewrite Hc.
  - destruct (P l); [reflexivity | assumption].
Qed.

Lemma find_app_reject {A : Type} (p : A -> bool) (l : list A) (a : A) :
  p a = false -> find p (l ++ [a]) = find p l.
Proof.
  intros H. induction l as [|b l IH]; simpl.
  - now rewrite H.
  - destruct (p b); [reflexivity | assumption].
Qed.

(** The record of [df['City'] = v], given whether the table has the label. *)
Lemma lookup_city_set (has : bool) (v : cell) (r : row) :
  existsb (String.eqb "City") (map fst r) = has ->
  lookup "City"
    (if has then map (map_cell "City" (fun _ => v)) r else r ++ [("City", v)])
  = Some v.
Proof.
  intros <-. induction r as [|[l x] r IH]; [reflexivity|].
  cbn [map fst existsb].
  replace (map_cell "City" (fun _ => v) (l, x))
    with (if String.eqb "City" l then (l, v) else (l, x)) by reflexivity.
  destruct (String.eqb_spec "City" l) as [<-|Hne]; cbn [orb].
  - reflexivity.
  - destruct (existsb (String.eqb "City") (map fst r)); cbn [lookup app].
    + destruct (String.eqb_spec "City" l); [contradiction | assumption].
    + destruct (String.eqb_spec "City" l); [contradiction | assumption].
Qed.

Lemma find_city_set (P : string -> bool) (has : bool) (v : cell) (r : row) :
  P "City" = false ->
  option_map snd
    (find (fun p => P (fst p))
       (if has then map (map_cell "City" (fun _ => v)) r else r ++ [("City", v)]))
  = option_map snd (find (fun p => P (fst p)) r).
Proof.
  intros HP. destruct has.
  - now apply find_map_cell.
  - now rewrite find_app_reject.
Qed.

Lemma cols_NoDup : NoDup cols.
Proof. apply has_dup_NoDup. reflexivity. Qed.

Lemma required_cols_NoDup : NoDup required_cols.
Proof. apply has_dup_NoDup. reflexivity. Qed.

Lemma eqb_relabel_level (c l : string) :
  is_level_alias c = false ->
  String.eqb c (relabel_level l) = String.eqb c l.
Proof.
  intros Hc. rewrite relabel_level_alias.
  destruct (is_level_alias l) eqn:A; [|reflexivity].
  destruct (String.eqb_spec c "Water_Level_m") as [->|_]; [discriminate|].
  destruct (String.eqb_spec c l) as [->|_]; [congruence | reflexivity].
Qed.

Lemma eqb_level_relabel (l : string) :
  String.eqb "Water_Level_m" (relabel_level l) = is_level_alias l.
Proof.
  rewrite relabel_level_alias.
  destruct (is_level_alias l) eqn:A; [reflexivity|].
  destruct (String.eqb_spec "Water_Level_m" l) as [<-|_];
    [discriminate | reflexivity].
Qed.

(** One record through lines 39-45: the city is set, the level is found
    under its canonical name, every other canonical field is untouched. *)
Lemma canonical_cell_lookup (city : string) (has : bool) (r : row) (c : string) :
  existsb (String.eqb "City") (map fst r) = has ->
  In c cols ->
  default_missing
    (map (fun p => (relabel_level (fst p), snd p))
       (if has then map (map_cell "City" (fun _ => CStr city)) r
        else r ++ [("City", CStr city)])) c
  = canonical_cell city r c.
Proof.
  intros Hhas Hc. unfold default_missing, canonical_cell.
  rewrite lookup_relabel.
  destruct (String.eqb_spec c "City") as [->|HnC].
  - rewrite (find_ext _ (fun p => String.eqb "City" (fst p)))
      by (intros; now apply eqb_relabel_level).
    rewrite <- lookup_find. now rewrite lookup_city_set.
  - destruct (String.eqb_spec c "Water_Level_m") as [->|HnW].
    + rewrite (find_ext _ (fun p => is_level_alias (fst p)))
        by (intros; apply eqb_level_relabel).
      rewrite (find_city_set is_level_alias) by reflexivity.
      unfold water_level.
      now destruct (find (fun p => is_level_alias (fst p)) r).
    + assert (Hal : is_level_alias c = false).
      { simpl in Hc. repeat (destruct Hc as [<-|Hc]; [try reflexivity|]);
          try contradiction; now elim HnW. }
      rewrite (find_ext _ (fun p => String.eqb c (fst p)))
        by (intros; now apply eqb_relabel_level).
      rewrite (find_city_set (String.eqb c)).
      * now rewrite <- lookup_find.
      * destruct (String.eqb_spec c "City"); [contradiction | reflexivity].
Qed.

(** Lines 39-55 on a table whose labels are distinct and which carries the
    water level under at most one of its names. *)
Lemma normalize_canonical (city : string) (df : DataFrame) :
  well_formed df = true ->
  NoDup (columns df) ->
  (List.length (filter is_level_alias (columns df)) <= 1)%nat ->
  normalize city df =
  Ok {| columns := cols; rows := map (canonical_row city) (rows df) |}.
Proof.
  intros Hwf Hnd Hal. unfold normalize.
  set (df1 := setitem "City" (CStr city) df).
  assert (Hwf1 : well_formed df1 = true) by now apply well_formed_setitem.
  rewrite (rename_guarded "WL" "WaterLevel" df1 Hwf1).
  set (df2 := rename "WL" "WaterLevel" df1).
  assert (Hwf2 : well_formed df2 = true) by now apply well_formed_rename.
  rewrite (rename_guarded "WaterLevel" "Water_Level_m" df2 Hwf2).
  set (df3 := rename "WaterLevel" "Water_Level_m" df2).
  assert (Hwf3 : well_formed df3 = true) by now apply well_formed_rename.
  assert (Hcols3 : columns df3 = map relabel_level (columns df1)).
  { subst df3 df2. simpl. now rewrite map_map. }
  assert (Hrows3 : rows df3 =
            map (fun r => map (fun p => (relabel_level (fst p), snd p))
                   (if contains "City" df
                    then map (map_cell "City" (fun _ => CStr city)) r
                    else r ++ [("City", CStr city)])) (rows df)).
  { subst df3 df2 df1. unfold setitem.
    destruct (contains "City" df); simpl; rewrite !map_map;
      apply map_ext; intros r; now rewrite map_map. }
  assert (Hnd3 : NoDup (columns df3)).
  { rewrite Hcols3. subst df1. unfold setitem.
    destruct (contains "City" df) eqn:E; simpl.
    - now apply relabel_level_NoDup.
    - apply existsb_eqb_not_In in E. apply relabel_level_NoDup.
      + apply (Permutation_NoDup (Permutation_cons_append (columns df) "City")).
        now constructor.
      + rewrite filter_app. simpl. now rewrite app_nil_r. }
  rewrite (select_filled cols df3 cols_NoDup Hnd3 Hwf3).
  f_equal. f_equal. rewrite Hrows3, map_map.
  apply map_ext_in. intros r Hr. unfold canonical_row.
  apply map_ext_in. intros c Hc. f_equal.
  apply canonical_cell_lookup; [|assumption].
  apply well_formed_Forall in Hwf. rewrite Forall_forall in Hwf.
  now rewrite (Hwf r Hr).
Qed.

(** The first entry under a water-level name is the [WL] entry when the
    record has one and no second water-level name. *)
Lemma water_level_WL (r : row) (v : cell) :
  (List.length (filter is_level_alias (map fst r)) <= 1)%nat ->
  lookup "WL" r = Some v -> water_level r = v.
Proof.
  intros Hlen Hl. unfold water_level.
  assert (HWL : In "WL" (map fst r)).
  { apply existsb_eqb_In. apply lookup_In_labels. congruence. }
  assert (Hall : forall l, In l (map fst r) -> is_level_alias l = true -> l = "WL").
  { intros l Hin Ha. now apply (alias_unique (map fst r)). }
  clear Hlen HWL. induction r as [|[l x] r IH]; [discriminate|].
  cbn [lookup] in Hl. cbn [find fst map] in *.
  destruct (is_level_alias l) eqn:A.
  - pose proof (Hall l (or_introl eq_refl) A) as ->.
    rewrite String.eqb_refl in Hl. injection Hl as ->. reflexivity.
  - destruct (String.eqb_spec "WL" l) as [<-|_]; [discriminate|].
    apply IH; [exact Hl|]. intros l' Hl'. apply Hall. now right.
Qed.

Lemma water_level_default (r : row) :
  filter is_level_alias (map fst r) = [] -> water_level r = CNum 0.
Proof.
  intros H. unfold water_level.
  induction r as [|[l x] r IH]; simpl in *; [reflexivity|].
  destruct (is_level_alias l); [discriminate | now apply IH].
Qed.

(** C1, counterexample.  A canonical column the source lacks is not always
    filled with 0.0: a source table without a [City] column comes out with
    the city label of its file in that column. *)
Lemma C1_city_not_defaulted :
  contains "City" levels_only = false /\
  In "City" cols /\
  exists out,
    normalize "Pune" levels_only = Ok out /\
    map (value "City") (rows out) = [CStr "Pune"; CStr "Pune"] /\
    map (value "City") (rows out) <> [CNum 0; CNum 0].
Proof.
  split; [reflexivity|]. split; [simpl; tauto|].
  eexists. split; [reflexivity|]. split; [reflexivity|].
  simpl. discriminate.
Qed.

(** C1, amended.  For a parsed source table with distinct column labels, at
    most one of which is a name of the water level ([WL], [WaterLevel],
    [Water_Level_m]), the normaliser returns a table whose columns are
    exactly the canonical ones in canonical order, so that every canonical
    column is there and every other source column is gone.  In every record
    [City] is the city label of the file; the water level is the value of
    the [WL] column when the source has one, and 0.0 when it has the level
    under no name; every other canonical column keeps the source's cell and
    is 0.0 when the source lacks the column. *)
Theorem C1_normalizer_canonical (city : string) (df : DataFrame) :
  well_formed df = true ->
  has_dup (columns df) = false ->
  (List.length (filter is_level_alias (columns df)) <=? 1)%nat = true ->
  exists out,
    normalize city df = Ok out /\
    columns out = cols /\
    rows out = map (canonical_row city) (rows df) /\
    (forall r, In r (rows df) ->
       canonical_cell city r "City" = CStr city /\
       (forall v, lookup "WL" r = Some v ->
                  canonical_cell city r "Water_Level_m" = v) /\
       (filter is_level_alias (columns df) = [] ->
        canonical_cell city r "Water_Level_m" = CNum 0) /\
       (forall c, In c cols -> c <> "City" -> c <> "Water_Level_m" ->
          canonical_cell city r c =
          if contains c df then value c r else CNum 0)).
Proof.
  intros Hwf Hnd Hal.
  apply has_dup_NoDup in Hnd. apply Nat.leb_le in Hal.
  exists {| columns := cols; rows := map (canonical_row city) (rows df) |}.
  split; [now apply normalize_canonical|].
  split; [reflexivity|]. split; [reflexivity|].
  intros r Hr.
  apply well_formed_Forall in Hwf. rewrite Forall_forall in Hwf.
  specialize (Hwf r Hr).
  split; [reflexivity|]. split; [|split].
  - intros v Hv. unfold canonical_cell. simpl.
    apply water_level_WL; [now rewrite Hwf | assumption].
  - intros Hno. unfold canonical_cell. simpl.
    apply water_level_default. now rewrite Hwf.
  - intros c Hc HnC HnW. unfold canonical_cell.
    destruct (String.eqb_spec c "City"); [contradiction|].
    destruct (String.eqb_spec c "Water_Level_m"); [contradiction|].
    unfold default_missing, value, contains. rewrite <- Hwf.
    pose proof (lookup_In_labels c r) as HL.
    destruct (lookup c r) as [v|].
    + destruct (existsb (String.eqb c) (map fst r)); [reflexivity|].
      exfalso. assert (false = true) by (apply HL; discriminate). discriminate.
    + destruct (existsb (String.eqb c) (map fst r)); [|reflexivity].
      exfalso. now apply (proj1 HL).
Qed.

Lemma C1_normalizer_canonical_witness :
  well_formed levels_only = true /\
  has_dup (columns levels_only) = false /\
  (List.length (filter is_level_alias (columns levels_only)) <=? 1)%nat = true /\
  exists out,
    normalize "Pune" levels_only = Ok out /\
    columns out = cols /\
    rows out = map (canonical_row "Pune") (rows levels_only).
Proof.
  split; [reflexivity|]. split; [reflexivity|]. split; [reflexivity|].
  destruct (C1_normalizer_canonical "Pune" levels_only eq_refl eq_refl eq_refl)
    as [out [H1 [H2 [H3 _]]]].
  exists out. split; [exact H1|]. split; [exact H2 | exact H3].
Defined.

(** ** The feature frame of a point prediction *)

Lemma well_formed_from_record (d : row) : well_formed (from_record d) = true.
Proof.
  unfold well_formed, from_record. simpl.
  rewrite (proj2 (list_string_eqb_eq _ _) eq_refl). reflexivity.
Qed.

Lemma prepare_features_completed (features : row) :
  NoDup (map fst features) ->
  prepare_features features =
  Ok {| columns := required_cols; rows := [completed features] |}.
Proof.
  intros Hnd. unfold prepare_features.
  rewrite (select_filled required_cols (from_record features)
             required_cols_NoDup Hnd (well_formed_from_record features)).
  reflexivity.
Qed.

Lemma mapM_as_float_numbers (cs : list cell) :
  forallb is_number cs = true ->
  mapM as_float cs = Ok (map (fun c => Some (number c)) cs).
Proof.
  induction cs as [|c cs IH]; simpl; intros H; [reflexivity|].
  apply andb_true_iff in H. destruct H as [Hc Hcs].
  destruct c; try discriminate. simpl. rewrite IH by assumption. reflexivity.
Qed.

Lemma default_missing_number (features : row) (c : string) :
  forallb (fun p => is_number (snd p)) features = true ->
  is_number (default_missing features c) = true.
Proof.
  unfold default_missing.
  induction features as [|[l v] r IH]; simpl; intros H; [reflexivity|].
  apply andb_true_iff in H. destruct H as [Hv Hr].
  destruct (String.eqb c l); [assumption | now apply IH].
Qed.

Lemma model_predict_completed (m : regressor) (features : row) :
  forallb (fun p => is_number (snd p)) features = true ->
  model_predict m {| columns := required_cols; rows := [completed features] |} =
  Ok [m (map (fun c => Some (number (default_missing features c)))
             required_cols)].
Proof.
  intros Hnum.
  assert (Hm : mapM as_float (map snd (completed features)) =
               Ok (map (fun c => Some (number (default_missing features c)))
                       required_cols)).
  { unfold completed. rewrite map_map. cbn [snd].
    rewrite <- (map_map (default_missing features) (fun c => Some (number c))).
    apply mapM_as_float_numbers.
    rewrite forallb_forall. intros c Hc. apply in_map_iff in Hc.
    destruct Hc as [c0 [<- _]]. now apply default_missing_number. }
  unfold model_predict. cbn [rows mapM]. rewrite Hm. reflexivity.
Qed.

Lemma predict_completed (m : regressor) (hd : option DataFrame) (features : row) :
  NoDup (map fst features) ->
  forallb (fun p => is_number (snd p)) features = true ->
  predict {| model := Some m; historical_data := hd |} (Some features) =
  (200, Prediction
          (m (map (fun c => Some (number (default_missing features c)))
                  required_cols))).
Proof.
  intros Hnd Hnum. unfold predict. cbn [model].
  rewrite (prepare_features_completed features Hnd). cbn [bind].
  rewrite (model_predict_completed m features Hnum). reflexivity.
Qed.

(** C4.  A point prediction whose feature map has distinct keys and numbers
    as values never fails, whichever of the six features it supplies (none,
    one, all): with a loaded model the answer is 200 and carries the single
    number the model returns for the six features in their fixed order,
    each absent one replaced by 0.0. *)
Theorem C4_point_prediction_defaults
  (m : regressor) (hd : option DataFrame) (features : row) :
  has_dup (map fst features) = false ->
  forallb (fun p => is_number (snd p)) features = true ->
  predict {| model := Some m; historical_data := hd |} (Some features) =
  (200, Prediction
          (m (map (fun c => Some (number (default_missing features c)))
                  required_cols)))
  /\ (forall c, lookup c features = None -> default_missing features c = CNum 0)
  /\ (forall c v, lookup c features = Some v -> default_missing features c = v).
Proof.
  intros Hnd Hnum. apply has_dup_NoDup in Hnd. split; [|split].
  - now apply predict_completed.
  - intros c Hc. unfold default_missing. now rewrite Hc.
  - intros c v Hc. unfold default_missing. now rewrite Hc.
Qed.

Lemma C4_point_prediction_defaults_witness :
  has_dup (map fst lat_only) = false /\
  forallb (fun p => is_number (snd p)) lat_only = true /\
  predict {| model := Some echo_first; historical_data := None |}
          (Some lat_only) = (200, Prediction (1297 # 100)).
Proof.
  split; [reflexivity|]. split; [reflexivity|].
  exact (proj1 (C4_point_prediction_defaults echo_first None lat_only
                  eq_refl eq_refl)).
Defined.

(** C10.  The answer of a point prediction depends on the request only
    through the six features after defaulting: two feature maps with
    distinct keys that complete to the same assignment get the same answer,
    whatever other keys they carry and in whatever order the keys come. *)
Theorem C10_prediction_depends_on_six
  (st : server) (features1 features2 : row) :
  has_dup (map fst features1) = false ->
  has_dup (map fst features2) = false ->
  completed features1 = completed features2 ->
  predict st (Some features1) = predict st (Some features2).
Proof.
  intros H1 H2 He. apply has_dup_NoDup in H1. apply has_dup_NoDup in H2.
  unfold predict. destruct (model st) as [m|]; [|reflexivity].
  rewrite (prepare_features_completed features1 H1).
  rewrite (prepare_features_completed features2 H2).
  now rewrite He.
Qed.

Lemma C10_prediction_depends_on_six_witness :
  has_dup (map fst lat_only) = false /\
  has_dup (map fst lat_and_more) = false /\
  completed lat_only = completed lat_and_more /\
  predict {| model := Some echo_first; historical_data := None |}
          (Some lat_only) =
  predict {| model := Some echo_first; historical_data := None |}
          (Some lat_and_more).
Proof.
  split; [reflexivity|]. split; [reflexivity|]. split; [reflexivity|].
  exact (C10_prediction_depends_on_six
           {| model := Some echo_first; historical_data := None |}
           lat_only lat_and_more eq_refl eq_refl eq_refl).
Defined.

(** ** The two call sites of the default policy *)

Lemma required_not_alias (l : string) :
  In l required_cols -> is_level_alias l = false.
Proof.
  simpl. intros H.
  repeat (destruct H as [<-|H]; [reflexivity|]). contradiction.
Qed.

(** C5.  For a feature map over the six feature names (distinct keys), the
    normaliser's default loop followed by the selection of the six features
    and the point prediction's default loop build the same one-record
    frame: the six names in their fixed order, a supplied name with its
    value, an absent one with 0.0. *)
Theorem C5_same_default_policy (city : string) (features : row) :
  has_dup (map fst features) = false ->
  forallb (fun p => existsb (String.eqb (fst p)) required_cols) features = true ->
  (out <- normalize city (from_record features) ;;
   getitem_list required_cols out) =
  Ok {| columns := required_cols; rows := [completed features] |}
  /\ prepare_features features =
     Ok {| columns := required_cols; rows := [completed features] |}.
Proof.
  intros Hnd Hsub. apply has_dup_NoDup in Hnd. split.
  - rewrite (normalize_canonical city (from_record features)).
    + reflexivity.
    + apply well_formed_from_record.
    + exact Hnd.
    + cbn [from_record columns]. rewrite filter_none; [simpl; lia|].
      intros l Hl. apply required_not_alias.
      apply in_map_iff in Hl. destruct Hl as [p [<- Hp]].
      rewrite forallb_forall in Hsub. apply existsb_eqb_In. now apply Hsub.
  - now apply prepare_features_completed.
Qed.

Lemma C5_same_default_policy_witness :
  has_dup (map fst lat_only) = false /\
  forallb (fun p => existsb (String.eqb (fst p)) required_cols) lat_only = true /\
  (out <- normalize "Pune" (from_record lat_only) ;;
   getitem_list required_cols out) = prepare_features lat_only.
Proof.
  split; [reflexivity|]. split; [reflexivity|].
  destruct (C5_same_default_policy "Pune" lat_only eq_refl eq_refl) as [H1 H2].
  exact (eq_trans H1 (eq_sym H2)).
Defined.

(** ** Feature and target extraction *)

Lemma getitem_list_NoDup (cs : list string) (df : DataFrame) :
  NoDup (columns df) ->
  forallb (fun c => contains c df) cs = true ->
  getitem_list cs df =
  Ok {| columns := cs; rows := map (pick cs) (rows df) |}.
Proof.
  intros Hnd Hall. unfold getitem_list. rewrite Hall. f_equal. f_equal.
  rewrite (flat_map_ext_In _ (fun c => [c])).
  - now rewrite flat_map_single, map_id.
  - intros c Hc. rewrite filter_eqb_NoDup by assumption.
    rewrite forallb_forall in Hall. specialize (Hall c Hc).
    unfold contains in Hall. now rewrite Hall.
Qed.

Lemma complete_false_iff (r : row) :
  complete r = false <-> exists l, In (l, CNaN) r.
Proof.
  unfold complete. induction r as [|[l v] r IH]; simpl.
  - split; [discriminate | intros [l []]].
  - rewrite andb_false_iff, IH. split.
    + intros [H|[l' H]].
      * destruct v; try discriminate. exists l. now left.
      * exists l'. now right.
    + intros [l' [H|H]].
      * injection H as -> ->. now left.
      * right. now exists l'.
Qed.

(** C2, counterexample.  A record that has all seven required fields and
    lacks only its date is not kept: extraction returns no row for it. *)
Lemma C2_undated_record_dropped :
  forallb has_required (rows undated_dataset) = true /\
  extract undated_dataset =
  Ok ({| columns := required_cols; rows := [] |}, []).
Proof. split; reflexivity. Qed.

(** C2, amended.  On a dataset with distinct column labels that has the six
    features and the water level, extraction drops exactly the records with
    a missing value in any of their columns, the date and the city
    included, and keeps every other record; X holds the six features and y
    the water level of the kept records, in the input order, so the two
    have the same length. *)
Theorem C2_extraction_drops_incomplete (df : DataFrame) :
  has_dup (columns df) = false ->
  forallb (fun c => contains c df) required_fields = true ->
  extract df =
  Ok ({| columns := required_cols;
         rows := map (pick required_cols) (filter complete (rows df)) |},
      map (value "Water_Level_m") (filter complete (rows df)))
  /\ List.length (map (pick required_cols) (filter complete (rows df))) =
     List.length (map (value "Water_Level_m") (filter complete (rows df)))
  /\ (forall r, In r (filter complete (rows df)) <->
                In r (rows df) /\ ~ exists l, In (l, CNaN) r).
Proof.
  intros Hnd Hall. apply has_dup_NoDup in Hnd.
  cbn [required_fields forallb] in Hall. apply andb_true_iff in Hall.
  destruct Hall as [Hw Hreq]. split; [|split].
  - unfold extract.
    rewrite (getitem_list_NoDup required_cols (dropna df) Hnd Hreq).
    cbn [bind]. unfold getitem.
    replace (contains "Water_Level_m" (dropna df)) with true by (symmetry; exact Hw).
    reflexivity.
  - now rewrite !length_map.
  - intros r. rewrite filter_In. split.
    + intros [Hin Hc]. split; [assumption|].
      intros He. apply complete_false_iff in He. congruence.
    + intros [Hin Hn]. split; [assumption|].
      destruct (complete r) eqn:E; [reflexivity|].
      exfalso. apply Hn. now apply complete_false_iff.
Qed.

Lemma C2_extraction_drops_incomplete_witness :
  has_dup (columns sample_dataset) = false /\
  forallb (fun c => contains c sample_dataset) required_fields = true /\
  exists X y,
    extract sample_dataset = Ok (X, y) /\
    List.length (rows X) = 3 /\ List.length y = 3.
Proof.
  split; [reflexivity|]. split; [reflexivity|].
  destruct (C2_extraction_drops_incomplete sample_dataset eq_refl eq_refl)
    as [H _].
  eexists. eexists. split; [exact H|]. split; reflexivity.
Defined.

(** ** Records through the load and the selections of the service *)

Lemma lookup_map_cell_same (c : string) (f : cell -> cell) (r : row) :
  lookup c (map (map_cell c f) r) = option_map f (lookup c r).
Proof.
  induction r as [|[l v] r IH]; [reflexivity|].
  cbn [map lookup].
  replace (map_cell c f (l, v)) with (if String.eqb c l then (l, f v) else (l, v))
    by reflexivity.
  destruct (String.eqb c l) eqn:E; cbn [lookup]; rewrite E;
    [reflexivity | assumption].
Qed.

Lemma lookup_map_cell_other (c c' : string) (f : cell -> cell) (r : row) :
  c <> c' -> lookup c' (map (map_cell c f) r) = lookup c' r.
Proof.
  intros Hne. induction r as [|[l v] r IH]; [reflexivity|].
  cbn [map lookup].
  replace (map_cell c f (l, v)) with (if String.eqb c l then (l, f v) else (l, v))
    by reflexivity.
  destruct (String.eqb_spec c l) as [<-|_]; cbn [lookup].
  - destruct (String.eqb_spec c' c); [now subst | assumption].
  - destruct (String.eqb c' l); [reflexivity | assumption].
Qed.

Lemma lookup_app (c : string) (r1 r2 : row) :
  lookup c (r1 ++ r2) =
  match lookup c r1 with Some v => Some v | None => lookup c r2 end.
Proof.
  induction r1 as [|[l v] r1 IH]; [reflexivity|].
  cbn [app lookup]. destruct (String.eqb c l); [reflexivity | assumption].
Qed.

Lemma lookup_filter_label (c c' : string) (r : row) :
  lookup c (filter (fun p => String.eqb c' (fst p)) r) =
  if String.eqb c c' then lookup c r else None.
Proof.
  induction r as [|[l v] r IH]; cbn [filter lookup fst].
  - now destruct (String.eqb c c').
  - destruct (String.eqb_spec c' l) as [<-|Hne]; cbn [lookup].
    + destruct (String.eqb_spec c c') as [->|_]; [reflexivity | assumption].
    + rewrite IH. destruct (String.eqb_spec c c') as [->|_]; [|reflexivity].
      destruct (String.eqb_spec c' l); [contradiction | reflexivity].
Qed.

(** Selecting a list of labels does not change the first cell under any of
    them. *)
Lemma lookup_pick (c : string) (cs : list string) (r : row) :
  lookup c (pick cs r) = if existsb (String.eqb c) cs then lookup c r else None.
Proof.
  unfold pick. induction cs as [|c' cs IH]; cbn [flat_map existsb];
    [reflexivity|].
  rewrite lookup_app, lookup_filter_label, IH.
  destruct (String.eqb c c'); cbn [orb]; [|reflexivity].
  destruct (lookup c r); [reflexivity|].
  now destruct (existsb (String.eqb c) cs).
Qed.

Lemma value_pick (c : string) (cs : list string) (r : row) :
  In c cs -> value c (pick cs r) = value c r.
Proof.
  intros H. unfold value. rewrite lookup_pick.
  apply existsb_eqb_In in H. now rewrite H.
Qed.

Lemma filter_filter {A : Type} (p q : A -> bool) (l : list A) :
  filter p (filter q l) = filter (fun a => q a && p a) l.
Proof.
  induction l as [|a l IH]; simpl; [reflexivity|].
  destruct (q a); simpl; [destruct (p a)|]; now rewrite IH.
Qed.

Lemma mapM_Ok {A B : Type} (f : A -> result B) (g : A -> B) (l : list A) :
  (forall a, In a l -> f a = Ok (g a)) -> mapM f l = Ok (map g l).
Proof.
  induction l as [|a l IH]; intros H; [reflexivity|].
  cbn [mapM map]. rewrite (H a) by now left. cbn [bind].
  rewrite IH by (intros; apply H; now right). reflexivity.
Qed.

Lemma numeric_numbers (cs : list cell) :
  forallb is_number cs = true -> numeric cs = Ok (map number cs).
Proof.
  induction cs as [|c cs IH]; simpl; intros H; [reflexivity|].
  apply andb_true_iff in H. destruct H as [Hc Hcs].
  destruct c; try discriminate. rewrite IH by assumption. reflexivity.
Qed.

Section Service.

Variable to_datetime : cell -> option Z.
Variable strftime : Z -> option string.

Lemma has_label (c : string) (df : DataFrame) (r : row) :
  well_formed df = true -> contains c df = true -> In r (rows df) ->
  exists v, lookup c r = Some v.
Proof.
  intros Hwf Hc Hr. apply well_formed_Forall in Hwf.
  rewrite Forall_forall in Hwf. unfold contains in Hc.
  rewrite <- (Hwf r Hr) in Hc. apply lookup_In_labels in Hc.
  destruct (lookup c r) as [v|]; [now exists v | congruence].
Qed.

(** The records of one city after the load of lines 36-38: those of the
    file whose date parsed, with the date replaced by its timestamp. *)
Lemma loaded_city_rows (city : string) (df : DataFrame) :
  well_formed df = true -> contains "Date" df = true ->
  filter (city_matches city)
    (rows (dropna_subset "Date"
             (map_column "Date" (coerce_date to_datetime) df))) =
  map (map (map_cell "Date" (coerce_date to_datetime)))
      (served to_datetime city df).
Proof.
  intros Hwf Hd. unfold dropna_subset, map_column, served. cbn [rows].
  rewrite !filter_map_comm, filter_filter. f_equal.
  apply filter_ext_in. intros r Hr.
  destruct (has_label "Date" df r Hwf Hd Hr) as [x Hx].
  f_equal.
  - unfold parsed, value. rewrite lookup_map_cell_same, Hx. cbn [option_map].
    unfold coerce_date. now destruct (to_datetime x).
  - unfold city_matches. now rewrite lookup_map_cell_other by discriminate.
Qed.

Lemma served_record_loaded (r : row) (x : cell) :
  lookup "Date" r = Some x ->
  historical_record strftime
    (pick ["Date"; "Water_Level_m"]
          (map (map_cell "Date" (coerce_date to_datetime)) r)) =
  served_record to_datetime strftime r.
Proof.
  intros Hx. unfold historical_record, served_record.
  rewrite !value_pick by (simpl; tauto). f_equal.
  - unfold value. rewrite lookup_map_cell_same, Hx. cbn [option_map].
    unfold coerce_date, format_date. now destruct (to_datetime x).
  - unfold value. now rewrite lookup_map_cell_other by discriminate.
Qed.

Lemma served_In (city : string) (df : DataFrame) (r : row) :
  In r (served to_datetime city df) ->
  In r (rows df) /\ parsed to_datetime r = true /\ city_matches city r = true.
Proof.
  unfold served. rewrite filter_In, andb_true_iff. tauto.
Qed.

(** The accessor on the city column of the loaded dataset is granted when
    the cities of the file are strings, and when some record is served. *)
Lemma accessor_strings (rs : list row) :
  forallb (fun r => is_string (value "City" r)) rs = true ->
  str_accessor (map (value "City") rs) = Ok tt.
Proof.
  destruct rs as [|r rs]; [reflexivity|]. intros H.
  unfold str_accessor. cbn [map]. cbn [forallb] in H.
  apply andb_true_iff in H. destruct H as [Hr _].
  cbn [existsb]. now rewrite Hr.
Qed.

Lemma accessor_match (city : string) (rs : list row) (r : row) :
  In r rs -> city_matches city r = true ->
  str_accessor (map (value "City") rs) = Ok tt.
Proof.
  intros Hin Hm.
  assert (He : existsb is_string (map (value "City") rs) = true).
  { apply existsb_exists. exists (value "City" r). split.
    - apply in_map_iff. now exists r.
    - unfold city_matches in Hm. unfold value.
      destruct (lookup "City" r) as [[]|]; try discriminate. reflexivity. }
  unfold str_accessor.
  destruct (map (value "City") rs); [reflexivity | now rewrite He].
Qed.

(** A city column of numbers is refused: the comparison of line 111 is
    outside any try, so the lookup ends in the framework's 500. *)
Lemma numeric_city_refused (st : server) (hd : DataFrame) (city : string) :
  historical_data st = Some hd ->
  contains "City" hd = true ->
  rows hd <> [] ->
  forallb (fun r => negb (is_string (value "City" r))) (rows hd) = true ->
  city <> EmptyString ->
  get_historical_data strftime st (Some city) = (500, Error InternalServerError).
Proof.
  intros Hst Hc Hne Hnum Hcity. unfold get_historical_data. rewrite Hst.
  destruct city as [|ch s]; [contradiction|].
  unfold getitem. rewrite Hc. cbn [bind].
  assert (He : existsb is_string (map (value "City") (rows hd)) = false).
  { apply not_true_is_false. intros He. apply existsb_exists in He.
    destruct He as [c [Hin Hs]]. apply in_map_iff in Hin.
    destruct Hin as [r [<- Hr]]. rewrite forallb_forall in Hnum.
    specialize (Hnum r Hr). rewrite Hs in Hnum. discriminate. }
  unfold str_accessor.
  destruct (rows hd) as [|r rs]; [contradiction|].
  cbn [map] in *. rewrite He. reflexivity.
Qed.

Lemma loaded_accessor_strings (df : DataFrame) :
  forallb (fun r => is_string (value "City" r)) (rows df) = true ->
  str_accessor
    (map (value "City")
       (rows (dropna_subset "Date"
                (map_column "Date" (coerce_date to_datetime) df)))) = Ok tt.
Proof.
  intros H. apply accessor_strings. rewrite forallb_forall in *.
  intros r Hr. unfold dropna_subset, map_column in Hr. cbn [rows] in Hr.
  apply filter_In in Hr. destruct Hr as [Hr _].
  apply in_map_iff in Hr. destruct Hr as [r0 [<- Hr0]].
  unfold value. rewrite lookup_map_cell_other by discriminate.
  exact (H r0 Hr0).
Qed.

Lemma loaded_accessor_served (city : string) (df : DataFrame) :
  well_formed df = true -> contains "Date" df = true ->
  served to_datetime city df <> [] ->
  str_accessor
    (map (value "City")
       (rows (dropna_subset "Date"
                (map_column "Date" (coerce_date to_datetime) df)))) = Ok tt.
Proof.
  intros Hwf Hd Hne.
  pose proof (loaded_city_rows city df Hwf Hd) as Hrows.
  destruct (served to_datetime city df) as [|h hits]; [contradiction|].
  assert (Hin : In (map (map_cell "Date" (coerce_date to_datetime)) h)
                   (filter (city_matches city)
                      (rows (dropna_subset "Date"
                               (map_column "Date" (coerce_date to_datetime) df)))))
    by (rewrite Hrows; now left).
  apply filter_In in Hin. destruct Hin as [Hin Hm].
  exact (accessor_match city _ _ Hin Hm).
Qed.

(** What a historical lookup answers once the dataset is loaded and the
    accessor is granted. *)
Lemma historical_lookup (a : artifact) (df : DataFrame) (city : string) :
  well_formed df = true ->
  forallb (fun c => contains c df) ["Date"; "City"; "Water_Level_m"] = true ->
  city <> EmptyString ->
  str_accessor
    (map (value "City")
       (rows (dropna_subset "Date"
                (map_column "Date" (coerce_date to_datetime) df)))) = Ok tt ->
  get_historical_data strftime (startup to_datetime a (Dataset df)) (Some city) =
  match served to_datetime city df with
  | [] => (404, Error CityNotFound)
  | hits => (200, Records (map (served_record to_datetime strftime) hits))
  end.
Proof.
  intros Hwf Hall Hcity Hacc. cbn [forallb] in Hall.
  apply andb_true_iff in Hall. destruct Hall as [Hd Hall].
  apply andb_true_iff in Hall. destruct Hall as [Hc Hall].
  apply andb_true_iff in Hall. destruct Hall as [Hw _].
  unfold get_historical_data, startup. cbn [historical_data load_dataset].
  rewrite Hd. destruct city as [|ch s]; [contradiction|].
  unfold getitem.
  replace (contains "City" (dropna_subset "Date"
             (map_column "Date" (coerce_date to_datetime) df)))
    with true by (symmetry; exact Hc).
  cbn [bind]. rewrite Hacc.
  cbn [bind rows]. rewrite (loaded_city_rows (String ch s) df Hwf Hd).
  pose proof (served_In (String ch s) df) as Hin.
  destruct (served to_datetime (String ch s) df) as [|h hits];
    [reflexivity|].
  unfold getitem_list. cbn [forallb columns dropna_subset map_column].
  unfold contains in *. cbn [columns]. rewrite Hd, Hw. cbn [andb rows uncaught bind].
  rewrite !map_map.
  rewrite (map_ext_in _ (served_record to_datetime strftime) (h :: hits)).
  - reflexivity.
  - intros r Hr. destruct (Hin r Hr) as [Hrows _].
    destruct (has_label "Date" df r Hwf Hd Hrows) as [x Hx].
    now apply (served_record_loaded r x).
Qed.

Lemma mean_numbers (cs : list cell) :
  cs <> [] -> forallb is_number cs = true ->
  mean cs = Ok (Some (Qmean (map number cs))).
Proof.
  intros Hne Hnum. unfold mean. rewrite (numeric_numbers cs Hnum).
  cbn [bind]. destruct cs; [contradiction | reflexivity].
Qed.

(** The averaged feature record of lines 91-94. *)
Lemma average_features (hits : list row) :
  hits <> [] ->
  forallb (fun r => forallb (fun c => is_number (value c r)) required_cols)
          hits = true ->
  mapM (fun c =>
          x <- mean (map (value c)
                       (map (pick required_cols)
                          (map (map (map_cell "Date" (coerce_date to_datetime)))
                               hits))) ;;
          Ok (c, cell_of_float x))
       required_cols =
  Ok (map (fun c => (c, CNum (Qmean (map (fun r => number (value c r)) hits))))
          required_cols).
Proof.
  intros Hne Hnum. apply mapM_Ok. intros c Hc.
  assert (Hcol : map (value c)
                   (map (pick required_cols)
                      (map (map (map_cell "Date" (coerce_date to_datetime)))
                           hits)) = map (value c) hits).
  { rewrite !map_map. apply map_ext. intros r.
    rewrite (value_pick c required_cols _ Hc). unfold value.
    rewrite lookup_map_cell_other; [reflexivity|].
    intros <-. simpl in Hc. repeat (destruct Hc as [Hc|Hc]; [discriminate|]).
    contradiction. }
  rewrite Hcol. rewrite mean_numbers.
  - cbn [bind cell_of_float]. now rewrite map_map.
  - destruct hits; [contradiction | discriminate].
  - rewrite forallb_forall. intros x Hx. apply in_map_iff in Hx.
    destruct Hx as [r [<- Hr]]. rewrite forallb_forall in Hnum.
    specialize (Hnum r Hr). rewrite forallb_forall in Hnum. now apply Hnum.
Qed.

(** What a city-averaged prediction answers once model and dataset are
    loaded and the features of the city's records are numbers. *)
Lemma city_prediction (m : regressor) (df : DataFrame) (city : string) :
  well_formed df = true ->
  NoDup (columns df) ->
  forallb (fun c => contains c df) ("Date" :: "City" :: required_cols) = true ->
  city <> EmptyString ->
  forallb (fun r => forallb (fun c => is_number (value c r)) required_cols)
          (served to_datetime city df) = true ->
  str_accessor
    (map (value "City")
       (rows (dropna_subset "Date"
                (map_column "Date" (coerce_date to_datetime) df)))) = Ok tt ->
  predict_by_city (startup to_datetime (Artifact m) (Dataset df)) (Some city) =
  match served to_datetime city df with
  | [] => (404, Error CityNotFound)
  | hits => (200, Prediction (m (feature_means hits)))
  end.
Proof.
  intros Hwf Hnd Hall Hcity Hnum Hacc.
  change (forallb (fun c => contains c df) ("Date" :: "City" :: required_cols))
    with (contains "Date" df && (contains "City" df &&
            forallb (fun c => contains c df) required_cols)) in Hall.
  apply andb_true_iff in Hall. destruct Hall as [Hd Hall].
  apply andb_true_iff in Hall. destruct Hall as [Hc Hreq].
  unfold predict_by_city, startup.
  cbn [model historical_data load_model load_dataset].
  rewrite Hd. destruct city as [|ch s]; [contradiction|].
  unfold getitem.
  replace (contains "City" (dropna_subset "Date"
             (map_column "Date" (coerce_date to_datetime) df)))
    with true by (symmetry; exact Hc).
  cbn [bind]. rewrite Hacc.
  cbn [bind rows]. rewrite (loaded_city_rows (String ch s) df Hwf Hd).
  destruct (served to_datetime (String ch s) df) as [|h hits];
    [reflexivity|].
  set (hs := h :: hits) in *.
  assert (Hne : hs <> []) by (subst hs; discriminate).
  rewrite (getitem_list_NoDup required_cols
             {| columns := columns (dropna_subset "Date"
                             (map_column "Date" (coerce_date to_datetime) df));
                rows := map (map (map_cell "Date" (coerce_date to_datetime))) hs |}
             Hnd Hreq).
  cbn [bind rows columns].
  rewrite (average_features hs Hne Hnum). cbn [bind].
  unfold model_predict, from_record. cbn [rows mapM bind].
  rewrite map_map. cbn [snd].
  rewrite (mapM_Ok as_float
             (fun c => Some (number c))
             (map (fun c => CNum (Qmean (map (fun r => number (value c r)) hs)))
                  required_cols)).
  - cbn [bind first]. rewrite map_map. cbn [number].
    subst hs. reflexivity.
  - intros c Hin. apply in_map_iff in Hin. destruct Hin as [c0 [<- _]].
    reflexivity.
Qed.

End Service.

(** ** The service's answers *)

(** C9, counterexample.  The dataset has a record of Pune, so a record
    matches the city; its date does not parse.  The lookup does not return
    the city's pairs with that record left out: it answers 404. *)
Lemma C9_unparsed_city_not_found :
  existsb (city_matches "pune") (rows unparsed_only) = true /\
  get_historical_data stub_strftime
    (startup stub_to_datetime NoArtifact (Dataset unparsed_only)) (Some "pune")
  = (404, Error CityNotFound).
Proof. split; reflexivity. Qed.

(** C9, amended.  A historical lookup on a loaded dataset (well-formed, with
    the Date, City and Water_Level_m columns, the city of every record a
    string) for a non-empty city name:
    if no record whose date parsed at load time matches the city
    case-insensitively (in particular if no record matches at all) the
    answer is 404, and the answer is never a 200 with an empty list;
    otherwise the (Date, Water_Level_m) pairs of the city's records are
    returned in dataset order without the records whose date failed to
    parse.  The date of a returned pair is the formatted timestamp of its
    record, so it is null only when the formatter refuses a date that did
    parse. *)
Theorem C9_historical_lookup
  (to_datetime : cell -> option Z) (strftime : Z -> option string)
  (a : artifact) (df : DataFrame) (city : string) :
  well_formed df = true ->
  forallb (fun c => contains c df) ["Date"; "City"; "Water_Level_m"] = true ->
  forallb (fun r => is_string (value "City" r)) (rows df) = true ->
  negb (String.eqb city "") = true ->
  let answer :=
    get_historical_data strftime (startup to_datetime a (Dataset df)) (Some city) in
  let hits := served to_datetime city df in
  (forallb (fun r => negb (city_matches city r)) (rows df) = true ->
   answer = (404, Error CityNotFound))
  /\ answer <> (200, Records [])
  /\ (hits = [] -> answer = (404, Error CityNotFound))
  /\ (hits <> [] ->
      answer = (200, Records (map (served_record to_datetime strftime) hits)))
  /\ (forall r, In r hits ->
        In r (rows df) /\ city_matches city r = true /\
        exists t, to_datetime (value "Date" r) = Some t /\
                  served_record to_datetime strftime r =
                  (strftime t, value "Water_Level_m" r))
  /\ (forall r, In r (rows df) -> to_datetime (value "Date" r) = None ->
        ~ In r hits).
Proof.
  intros Hwf Hall Hstr Hcity answer hits.
  assert (Hne : city <> EmptyString).
  { intros ->. discriminate. }
  pose proof (historical_lookup to_datetime strftime a df city Hwf Hall Hne
                (loaded_accessor_strings to_datetime df Hstr))
    as Hans.
  fold answer in Hans. fold hits in Hans.
  repeat split.
  - intros Hno. rewrite Hans.
    assert (Hnil : hits = []).
    { subst hits. unfold served. apply filter_none. intros r Hr.
      rewrite forallb_forall in Hno. specialize (Hno r Hr).
      apply negb_true_iff in Hno. rewrite Hno. apply andb_false_r. }
    now rewrite Hnil.
  - rewrite Hans. destruct hits; discriminate.
  - intros Hnil. rewrite Hans. now rewrite Hnil.
  - intros Hnn. rewrite Hans. destruct hits; [contradiction | reflexivity].
  - now apply (served_In to_datetime city df r).
  - now apply (served_In to_datetime city df r).
  - apply (served_In to_datetime city df r) in H. destruct H as [_ [Hp _]].
    unfold parsed in Hp. unfold served_record.
    destruct (to_datetime (value "Date" r)) as [t|]; [|discriminate].
    now exists t.
  - intros r Hr Hnone Hin.
    apply (served_In to_datetime city df r) in Hin. destruct Hin as [_ [Hp _]].
    unfold parsed in Hp. rewrite Hnone in Hp. discriminate.
Qed.

Lemma C9_historical_lookup_witness :
  well_formed sample_dataset = true /\
  forallb (fun c => contains c sample_dataset)
          ["Date"; "City"; "Water_Level_m"] = true /\
  forallb (fun r => is_string (value "City" r)) (rows sample_dataset) = true /\
  negb (String.eqb "PUNE" "") = true /\
  get_historical_data stub_strftime
    (startup stub_to_datetime NoArtifact (Dataset sample_dataset)) (Some "PUNE")
  = (200, Records [(Some "2021-03-01", CNum 4)]).
Proof.
  split; [reflexivity|]. split; [reflexivity|]. split; [reflexivity|].
  split; [reflexivity|].
  destruct (C9_historical_lookup stub_to_datetime stub_strftime NoArtifact
              sample_dataset "PUNE" eq_refl eq_refl eq_refl eq_refl)
    as [_ [_ [_ [H _]]]].
  apply H. discriminate.
Defined.

(** C3, counterexample.  Pune has three records, with latitudes 10, 12 and
    20; the date of the third does not parse.  The mean latitude over the
    records of the city is 14, yet the model is fed 11, the mean of the
    first two: the third record was dropped when the dataset was loaded. *)
Lemma C3_unparsed_record_not_averaged :
  let st := startup stub_to_datetime (Artifact echo_first) (Dataset pune_thrice) in
  let of_city := filter (city_matches "pune") (rows pune_thrice) in
  List.length of_city = 3 /\
  Qeq (echo_first (feature_means of_city)) (14 # 1) /\
  exists q,
    predict_by_city st (Some "pune") = (200, Prediction q) /\
    Qeq q (11 # 1) /\
    ~ Qeq q (echo_first (feature_means of_city)).
Proof.
  cbv zeta. split; [reflexivity|]. split; [reflexivity|].
  eexists. split; [vm_compute; reflexivity|].
  split; [reflexivity|]. intros H. vm_compute in H. discriminate.
Qed.

(** C3, amended.  With model and dataset loaded (a well-formed dataset with
    distinct labels that has the date, the city and the six features, the
    city of every record a string) and a non-empty city name, the
    city-averaged prediction works on the records that survived the load,
    that is, whose date parsed: when at least one of them matches the city
    case-insensitively, and the features of the matching ones are numbers,
    the model is fed the per-feature arithmetic mean over exactly those
    records and its single number is returned with 200; when none of them
    matches, the answer is 404. *)
Theorem C3_city_average
  (to_datetime : cell -> option Z) (m : regressor) (df : DataFrame)
  (city : string) :
  well_formed df = true ->
  has_dup (columns df) = false ->
  forallb (fun c => contains c df) ("Date" :: "City" :: required_cols) = true ->
  forallb (fun r => is_string (value "City" r)) (rows df) = true ->
  negb (String.eqb city "") = true ->
  forallb (fun r => forallb (fun c => is_number (value c r)) required_cols)
          (served to_datetime city df) = true ->
  let answer :=
    predict_by_city (startup to_datetime (Artifact m) (Dataset df)) (Some city) in
  let hits := served to_datetime city df in
  (hits <> [] -> answer = (200, Prediction (m (feature_means hits))))
  /\ (hits = [] -> answer = (404, Error CityNotFound))
  /\ (forall r, In r hits <->
        In r (rows df) /\ parsed to_datetime r = true /\
        city_matches city r = true).
Proof.
  intros Hwf Hnd Hall Hstr Hcity Hnum answer hits.
  apply has_dup_NoDup in Hnd.
  assert (Hne : city <> EmptyString).
  { intros ->. discriminate. }
  pose proof (city_prediction to_datetime m df city Hwf Hnd Hall Hne Hnum
                (loaded_accessor_strings to_datetime df Hstr))
    as Hans.
  fold answer in Hans. fold hits in Hans.
  split; [|split].
  - intros Hnn. rewrite Hans. destruct hits; [contradiction | reflexivity].
  - intros Hnil. rewrite Hans. now rewrite Hnil.
  - intros r. subst hits. unfold served.
    rewrite filter_In, andb_true_iff. tauto.
Qed.

Lemma C3_city_average_witness :
  well_formed pune_thrice = true /\
  has_dup (columns pune_thrice) = false /\
  forallb (fun c => contains c pune_thrice)
          ("Date" :: "City" :: required_cols) = true /\
  forallb (fun r => is_string (value "City" r)) (rows pune_thrice) = true /\
  negb (String.eqb "PUNE" "") = true /\
  forallb (fun r => forallb (fun c => is_number (value c r)) required_cols)
          (served stub_to_datetime "PUNE" pune_thrice) = true /\
  List.length (served stub_to_datetime "PUNE" pune_thrice) = 2 /\
  exists q,
    predict_by_city
      (startup stub_to_datetime (Artifact sum_features) (Dataset pune_thrice))
      (Some "PUNE") = (200, Prediction q) /\
    Qeq q (81 # 1) /\
    (predict_by_city
       (startup stub_to_datetime (Artifact sum_features) (Dataset pune_thrice))
       (Some "Goa") = (404, Error CityNotFound)).
Proof.
  split; [reflexivity|]. split; [reflexivity|]. split; [reflexivity|].
  split; [reflexivity|]. split; [reflexivity|]. split; [reflexivity|].
  split; [reflexivity|].
  destruct (C3_city_average stub_to_datetime sum_features pune_thrice "PUNE"
              eq_refl eq_refl eq_refl eq_refl eq_refl eq_refl) as [H _].
  destruct (C3_city_average stub_to_datetime sum_features pune_thrice "Goa"
              eq_refl eq_refl eq_refl eq_refl eq_refl eq_refl) as [_ [H0 _]].
  eexists. split; [apply H; discriminate|].
  split; [reflexivity | apply H0; reflexivity].
Defined.

(** C8.  The model and the dataset are loaded independently, the process
    starts whatever is found at the two paths, and each operation fails
    only for the resource it needs.  With no model (file absent or
    unloadable) and the dataset loaded, a point prediction is refused with
    500 "model not loaded" while the historical lookup of a city that has
    records is answered with 200; with no dataset (file absent or
    unreadable) and the model loaded, the historical lookup is refused with
    500 "data not loaded" while a point prediction is answered with 200. *)
Theorem C8_partial_service
  (to_datetime : cell -> option Z) (strftime : Z -> option string)
  (m : regressor) (df : DataFrame) (features : row) (city : string) :
  has_dup (map fst features) = false ->
  forallb (fun p => is_number (snd p)) features = true ->
  well_formed df = true ->
  forallb (fun c => contains c df) ["Date"; "City"; "Water_Level_m"] = true ->
  negb (String.eqb city "") = true ->
  (1 <=? List.length (served to_datetime city df))%nat = true ->
  (forall a, load_model a = None ->
     predict (startup to_datetime a (Dataset df)) (Some features) =
       (500, Error ModelNotLoaded) /\
     get_historical_data strftime (startup to_datetime a (Dataset df)) (Some city) =
       (200, Records (map (served_record to_datetime strftime)
                          (served to_datetime city df))))
  /\ (forall f, load_dataset to_datetime f = None ->
        predict (startup to_datetime (Artifact m) f) (Some features) =
          (200, Prediction
                  (m (map (fun c => Some (number (default_missing features c)))
                          required_cols))) /\
        get_historical_data strftime (startup to_datetime (Artifact m) f) (Some city) =
          (500, Error DataNotLoaded))
  /\ (forall a f,
        model (startup to_datetime a f) = load_model a /\
        historical_data (startup to_datetime a f) = load_dataset to_datetime f)
  /\ load_model NoArtifact = None /\ load_model BadArtifact = None
  /\ load_dataset to_datetime NoDataset = None
  /\ load_dataset to_datetime BadDataset = None.
Proof.
  intros Hnd Hnum Hwf Hall Hcity Hsome.
  assert (Hne : city <> EmptyString).
  { intros ->. discriminate. }
  split; [|split; [|repeat split]].
  - intros a Ha. split.
    + unfold predict, startup. cbn [model]. now rewrite Ha.
    + assert (Hd : contains "Date" df = true).
      { cbn [forallb] in Hall. now apply andb_true_iff in Hall. }
      rewrite (historical_lookup to_datetime strftime a df city Hwf Hall Hne).
      * destruct (served to_datetime city df); [discriminate | reflexivity].
      * apply (loaded_accessor_served to_datetime city df Hwf Hd).
        destruct (served to_datetime city df); discriminate.
  - intros f Hf. split.
    + apply has_dup_NoDup in Hnd.
      exact (predict_completed m (load_dataset to_datetime f) features Hnd Hnum).
    + unfold get_historical_data, startup. cbn [historical_data].
      now rewrite Hf.
Qed.

Lemma C8_partial_service_witness :
  has_dup (map fst lat_only) = false /\
  forallb (fun p => is_number (snd p)) lat_only = true /\
  well_formed sample_dataset = true /\
  forallb (fun c => contains c sample_dataset)
          ["Date"; "City"; "Water_Level_m"] = true /\
  negb (String.eqb "agra" "") = true /\
  (1 <=? List.length (served stub_to_datetime "agra" sample_dataset))%nat = true /\
  predict (startup stub_to_datetime NoArtifact (Dataset sample_dataset))
          (Some lat_only) = (500, Error ModelNotLoaded) /\
  get_historical_data stub_strftime
    (startup stub_to_datetime NoArtifact (Dataset sample_dataset)) (Some "agra")
  = (200, Records [(Some "2021-03-01", CNum 6)]) /\
  predict (startup stub_to_datetime (Artifact echo_first) NoDataset)
          (Some lat_only) = (200, Prediction (1297 # 100)) /\
  get_historical_data stub_strftime
    (startup stub_to_datetime (Artifact echo_first) NoDataset) (Some "agra")
  = (500, Error DataNotLoaded).
Proof.
  split; [reflexivity|]. split; [reflexivity|]. split; [reflexivity|].
  split; [reflexivity|]. split; [reflexivity|]. split; [reflexivity|].
  destruct (C8_partial_service stub_to_datetime stub_strftime echo_first
              sample_dataset lat_only "agra"
              eq_refl eq_refl eq_refl eq_refl eq_refl eq_refl)
    as [Hmodel [Hdata _]].
  destruct (Hmodel NoArtifact eq_refl) as [H1 H2].
  destruct (Hdata NoDataset eq_refl) as [H3 H4].
  split; [exact H1|]. split; [exact H2|]. split; [exact H3 | exact H4].
Defined.

(** ** The combiner *)

Lemma glob_rejects_output : glob_match output_name = false.
Proof. reflexivity. Qed.

Lemma Permutation_filter {A : Type} (p : A -> bool) (l l' : list A) :
  Permutation l l' -> Permutation (filter p l) (filter p l').
Proof.
  induction 1 as [|x l l' _ IH|x y l|l l' l'' _ IH1 _ IH2]; simpl.
  - constructor.
  - destruct (p x); [now constructor | assumption].
  - destruct (p x), (p y); try apply Permutation_refl. apply perm_swap.
  - now transitivity (filter p l').
Qed.

(** A selection whose result has distinct labels has exactly the requested
    labels. *)
Lemma selected_labels_NoDup (cs L : list string) :
  (forall c, In c cs -> In c L) ->
  NoDup (flat_map (fun c => filter (String.eqb c) L) cs) ->
  flat_map (fun c => filter (String.eqb c) L) cs = cs.
Proof.
  induction cs as [|c cs IH]; intros Hin Hnd; [reflexivity|].
  cbn [flat_map] in *.
  assert (Hc : In c (filter (String.eqb c) L)).
  { apply filter_In. split; [apply Hin; now left | apply String.eqb_refl]. }
  assert (Hall : forall x, In x (filter (String.eqb c) L) -> x = c).
  { intros x Hx. apply filter_In in Hx. destruct Hx as [_ Hx].
    apply String.eqb_eq in Hx. now subst. }
  apply NoDup_app_remove_r in Hnd as Hnd1.
  apply NoDup_app_remove_l in Hnd as Hnd2.
  rewrite IH; [|intros; apply Hin; now right | assumption].
  destruct (filter (String.eqb c) L) as [|x t]; [contradiction|].
  assert (x = c) by (apply Hall; now left). subst x.
  destruct t as [|y t]; [reflexivity|].
  assert (y = c) by (apply Hall; right; now left). subst y.
  inversion Hnd1 as [|? ? Hn _]; subst. elim Hn. now left.
Qed.

Lemma getitem_list_labels (cs : list string) (df out : DataFrame) :
  getitem_list cs df = Ok out ->
  has_dup (columns out) = false -> columns out = cs.
Proof.
  unfold getitem_list.
  destruct (forallb (fun c => contains c df) cs) eqn:E; [|discriminate].
  intros H Hnd. injection H as <-. cbn [columns] in *.
  apply has_dup_NoDup in Hnd. apply selected_labels_NoDup; [|assumption].
  intros c Hc. rewrite forallb_forall in E. apply existsb_eqb_In.
  exact (E c Hc).
Qed.

Lemma normalize_labels (city : string) (df out : DataFrame) :
  normalize city df = Ok out ->
  has_dup (columns out) = false -> columns out = cols.
Proof. unfold normalize. apply getitem_list_labels. Qed.

Lemma concat_same_columns (frames : list DataFrame) (L : list string) :
  frames <> [] ->
  (forall f, In f frames -> columns f = L) ->
  concat frames = Ok {| columns := L; rows := flat_map rows frames |}.
Proof.
  intros Hne Hall. destruct frames as [|f0 rest]; [contradiction|].
  unfold concat.
  assert (E : forallb (fun f => list_string_eqb (columns f) (columns f0)) rest
              = true).
  { apply forallb_forall. intros f Hf. apply list_string_eqb_eq.
    rewrite (Hall f0) by now left. apply Hall. now right. }
  rewrite E. now rewrite (Hall f0) by now left.
Qed.

(** Frames that come out of the normaliser are stacked only when they all
    have one column index. *)
Lemma concat_Ok_same_columns (frames : list DataFrame) (df : DataFrame) :
  (forall f, In f frames -> has_dup (columns f) = false -> columns f = cols) ->
  concat frames = Ok df ->
  frames <> [] /\ exists L, forall f, In f frames -> columns f = L.
Proof.
  intros Hnorm H. destruct frames as [|f0 rest]; [discriminate|].
  split; [discriminate|]. unfold concat in H.
  destruct (forallb (fun f => list_string_eqb (columns f) (columns f0)) rest)
    eqn:E.
  - exists (columns f0). intros f [<-|Hf]; [reflexivity|].
    rewrite forallb_forall in E. now apply list_string_eqb_eq, E.
  - destruct (existsb (fun f => has_dup (columns f)) (f0 :: rest)) eqn:D;
      [discriminate|].
    exfalso.
    assert (Hcols : forall f, In f (f0 :: rest) -> columns f = cols).
    { intros f Hf. apply Hnorm; [assumption|].
      destruct (has_dup (columns f)) eqn:Df; [|reflexivity].
      assert (existsb (fun f => has_dup (columns f)) (f0 :: rest) = true)
        by (apply existsb_exists; now exists f).
      congruence. }
    assert (forallb (fun f => list_string_eqb (columns f) (columns f0)) rest
            = true).
    { apply forallb_forall. intros f Hf. apply list_string_eqb_eq.
      rewrite (Hcols f0) by now left. apply Hcols. now right. }
    congruence.
Qed.

Section CombinerFacts.

Variable content : Type.
Variable read_csv : content -> result DataFrame.
Variable to_csv : DataFrame -> content.

(** The loop of lines 34-58 collects, in listing order, the frames of the
    files whose processing does not raise. *)
Lemma process_all_flat_map (files : directory content) :
  process_all read_csv files =
  flat_map (fun f => match process_file read_csv f with
                     | Ok df => [df]
                     | Raise _ => []
                     end) files.
Proof.
  unfold process_all.
  assert (H : forall acc,
             fold_left
               (fun combined_data f =>
                  match process_file read_csv f with
                  | Ok df => combined_data ++ [df]
                  | Raise _ => combined_data
                  end) files acc =
             acc ++ flat_map (fun f => match process_file read_csv f with
                                       | Ok df => [df]
                                       | Raise _ => []
                                       end) files).
  { induction files as [|f files IH]; intros acc; cbn [fold_left flat_map].
    - now rewrite app_nil_r.
    - rewrite IH. destruct (process_file read_csv f).
      + now rewrite <- app_assoc.
      + reflexivity. }
  exact (H []).
Qed.

Lemma processed_labels (files : directory content) (f : DataFrame) :
  In f (process_all read_csv files) ->
  has_dup (columns f) = false -> columns f = cols.
Proof.
  rewrite process_all_flat_map, in_flat_map. intros [file [_ Hf]].
  destruct (process_file read_csv file) as [df|] eqn:E; [|contradiction].
  destruct Hf as [<-|[]]. unfold process_file in E.
  destruct (read_csv (snd file)) as [t|]; [|discriminate].
  cbn [bind] in E. exact (normalize_labels _ _ _ E).
Qed.

(** The combined file is never picked up as a source. *)
Lemma filter_write_output (c : content) (d : directory content) :
  filter (fun f => glob_match (fst f)) (write_file output_name c d) =
  filter (fun f => glob_match (fst f)) d.
Proof.
  induction d as [|[n c'] d IH]; cbn [write_file].
  - cbn [filter fst]. now rewrite glob_rejects_output.
  - destruct (String.eqb_spec n output_name) as [->|Hne]; cbn [filter fst].
    + now rewrite glob_rejects_output.
    + rewrite IH. reflexivity.
Qed.

Lemma write_file_names (name : string) (c : content) (d : directory content) :
  In name (map fst d) -> map fst (write_file name c d) = map fst d.
Proof.
  induction d as [|[n c'] d IH]; cbn [write_file map fst In]; [contradiction|].
  intros H. destruct (String.eqb_spec n name) as [->|Hne]; [reflexivity|].
  cbn [map fst]. f_equal. apply IH. destruct H; [contradiction | assumption].
Qed.

Lemma write_file_In (name : string) (c : content) (d : directory content) :
  In name (map fst (write_file name c d)).
Proof.
  induction d as [|[n c'] d IH]; cbn [write_file map fst In]; [now left|].
  destruct (String.eqb_spec n name) as [->|Hne]; cbn [map fst In];
    [now left | now right].
Qed.

Lemma combine_inv (d d1 : directory content) (p : string) :
  combine_and_clean_data read_csv to_csv (Some d) = Ok (Some d1, Some p) ->
  exists df,
    concat (process_all read_csv (filter (fun f => glob_match (fst f)) d))
    = Ok df /\
    d1 = write_file output_name (to_csv df) d /\ p = output_name.
Proof.
  unfold combine_and_clean_data.
  destruct (filter (fun f => glob_match (fst f)) d) as [|f0 fs];
    [discriminate|].
  destruct (process_all read_csv (f0 :: fs)) as [|g0 gs]; [discriminate|].
  destruct (concat (g0 :: gs)) as [df|e]; cbn [bind]; [|discriminate].
  intros H. injection H as <- <-. now exists df.
Qed.

Lemma combine_intro (d : directory content) (df : DataFrame) :
  concat (process_all read_csv (filter (fun f => glob_match (fst f)) d))
  = Ok df ->
  combine_and_clean_data read_csv to_csv (Some d) =
  Ok (Some (write_file output_name (to_csv df) d), Some output_name).
Proof.
  unfold combine_and_clean_data.
  destruct (filter (fun f => glob_match (fst f)) d) as [|f0 fs];
    [discriminate|].
  destruct (process_all read_csv (f0 :: fs)) as [|g0 gs]; [discriminate|].
  intros ->. reflexivity.
Qed.

(** Zero sources, or sources that all fail: failure is reported and
    nothing is written. *)
Lemma combine_nothing (d : directory content) :
  process_all read_csv (filter (fun f => glob_match (fst f)) d) = [] ->
  combine_and_clean_data read_csv to_csv (Some d) = Ok (Some d, None).
Proof.
  unfold combine_and_clean_data.
  destruct (filter (fun f => glob_match (fst f)) d) as [|f0 fs];
    [reflexivity|].
  now intros ->.
Qed.

End CombinerFacts.

(** C7.  When a run of the combiner over a raw directory writes its output,
    a second run over the directory as it then is, with the files listed in
    any order, succeeds as well and writes to the same name, replacing the
    first output without adding a file; the two combined tables have the
    same columns and the same records up to their order.  The output name
    does not match the source pattern, so the first output is not read
    back. *)
Theorem C7_combination_idempotent
  (content : Type) (read_csv : content -> result DataFrame)
  (to_csv : DataFrame -> content)
  (d d1 d1' : directory content) (p : string) :
  combine_and_clean_data read_csv to_csv (Some d) = Ok (Some d1, Some p) ->
  Permutation d1 d1' ->
  exists df1 df2,
    p = output_name /\
    d1 = write_file output_name (to_csv df1) d /\
    combine_and_clean_data read_csv to_csv (Some d1') =
      Ok (Some (write_file output_name (to_csv df2) d1'), Some output_name) /\
    columns df2 = columns df1 /\
    Permutation (rows df1) (rows df2) /\
    map fst (write_file output_name (to_csv df2) d1') = map fst d1' /\
    glob_match output_name = false.
Proof.
  intros Hrun Hperm.
  destruct (combine_inv content read_csv to_csv d d1 p Hrun) as [df1 [Hc [Hd1 Hp]]].
  set (frames := process_all read_csv (filter (fun f => glob_match (fst f)) d))
    in *.
  destruct (concat_Ok_same_columns frames df1
              (processed_labels content read_csv _) Hc) as [Hne [L HL]].
  rewrite (concat_same_columns frames L Hne HL) in Hc. injection Hc as <-.
  set (frames' := process_all read_csv
                    (filter (fun f => glob_match (fst f)) d1')).
  assert (HP : Permutation frames frames').
  { subst frames frames'. rewrite !process_all_flat_map.
    apply Permutation_flat_map.
    rewrite <- (filter_write_output content
                  (to_csv {| columns := L; rows := flat_map rows
                     (process_all read_csv
                        (filter (fun f => glob_match (fst f)) d)) |}) d).
    rewrite <- Hd1. now apply Permutation_filter. }
  assert (HL' : forall f, In f frames' -> columns f = L).
  { intros f Hf. apply HL. apply (Permutation_in f (Permutation_sym HP) Hf). }
  assert (Hne' : frames' <> []).
  { intros E. rewrite E in HP. apply Permutation_sym, Permutation_nil in HP.
    contradiction. }
  exists {| columns := L; rows := flat_map rows frames |}.
  exists {| columns := L; rows := flat_map rows frames' |}.
  split; [assumption|]. split; [assumption|]. split.
  - apply combine_intro. fold frames'. now apply concat_same_columns.
  - split; [reflexivity|]. split.
    + cbn [rows]. now apply Permutation_flat_map.
    + split; [|reflexivity]. apply write_file_names.
      apply (Permutation_in output_name (Permutation_map fst Hperm)).
      rewrite Hd1. apply write_file_In.
Qed.

Lemma C7_combination_idempotent_witness :
  combine_and_clean_data stub_read stub_write (Some three_files) =
    Ok (Some after_first_run, Some output_name) /\
  Permutation after_first_run (rev after_first_run) /\
  exists df1 df2,
    after_first_run = write_file output_name (stub_write df1) three_files /\
    combine_and_clean_data stub_read stub_write (Some (rev after_first_run)) =
      Ok (Some (write_file output_name (stub_write df2) (rev after_first_run)),
          Some output_name) /\
    columns df2 = columns df1 /\
    Permutation (rows df1) (rows df2).
Proof.
  split; [reflexivity|]. split; [apply Permutation_rev|].
  destruct (C7_combination_idempotent (option DataFrame) stub_read stub_write
              three_files after_first_run (rev after_first_run) output_name
              eq_refl (Permutation_rev after_first_run))
    as [df1 [df2 [_ [H1 [H2 [H3 [H4 _]]]]]]].
  exists df1, df2. split; [exact H1|]. split; [exact H2|].
  split; [exact H3 | exact H4].
Defined.

(** What the normaliser makes of a table that carries the water level under
    two names: the canonical label occurs twice. *)
Lemma level_twice_repeats_column :
  exists out,
    normalize "Agra" level_twice = Ok out /\
    columns out =
    ["Date"; "City"; "Water_Level_m"; "Water_Level_m"; "Lat"; "Long";
     "Rainfall_mm"; "Temperature_C"; "pH"; "Dissolved_Oxygen_mg_L"].
Proof. eexists. split; reflexivity. Qed.

(** C6, the failing input.  Two sources are discovered and both parse; one
    of them carries the water level under two names.  Its frame has a
    repeated label, the frames cannot be stacked, and the exception leaves
    the combiner: no output is written although two sources parsed. *)
Theorem C6_alias_clash_aborts :
  map (fun f => glob_match (fst f)) two_sources = [true; true] /\
  map (fun f => match process_file stub_read f with
                | Ok _ => true
                | Raise _ => false
                end) two_sources = [true; true] /\
  combine_and_clean_data stub_read stub_write (Some two_sources) =
  Raise InvalidIndexError.
Proof. split; [reflexivity|]. split; reflexivity. Qed.

(** What the combiner does when no source carries the water level twice:
    the output holds the canonical records of the sources that parsed, in
    listing order. *)
Lemma combine_distinct_labels
  (content : Type) (read_csv : content -> result DataFrame)
  (to_csv : DataFrame -> content) (d : directory content) :
  let frames :=
    process_all read_csv (filter (fun f => glob_match (fst f)) d) in
  frames <> [] ->
  (forall f, In f frames -> has_dup (columns f) = false) ->
  combine_and_clean_data read_csv to_csv (Some d) =
  Ok (Some (write_file output_name
              (to_csv {| columns := cols; rows := flat_map rows frames |}) d),
      Some output_name).
Proof.
  intros frames Hne Hnd. apply combine_intro. fold frames.
  apply concat_same_columns; [assumption|].
  intros f Hf. apply (processed_labels content read_csv _ f Hf).
  now apply Hnd.
Qed.

(* ================================================================== *)
(** * Further properties of the code *)

(** ** The normaliser never fails *)

Lemma setitem_length (c : string) (v : cell) (df : DataFrame) :
  List.length (rows (setitem c v df)) = List.length (rows df).
Proof.
  unfold setitem. destruct (contains c df); cbn [rows map_column];
    now rewrite length_map.
Qed.

Lemma rename_length (a b : string) (df : DataFrame) :
  List.length (rows (rename a b df)) = List.length (rows df).
Proof. cbn [rows rename]. now rewrite length_map. Qed.

Lemma normalize_total (city : string) (df : DataFrame) :
  exists out,
    normalize city df = Ok out /\
    List.length (rows out) = List.length (rows df) /\
    forall c, In c cols -> contains c out = true.
Proof.
  unfold normalize.
  set (df1 := setitem "City" (CStr city) df).
  set (df2 := if contains "WL" df1 then rename "WL" "WaterLevel" df1 else df1).
  set (df3 := if contains "WaterLevel" df2
              then rename "WaterLevel" "Water_Level_m" df2 else df2).
  assert (Hlen : List.length (rows df3) = List.length (rows df)).
  { subst df3 df2 df1.
    repeat match goal with
           | |- context [if ?b then _ else _] => destruct b
           end; rewrite ?rename_length; apply setitem_length. }
  rewrite (ensure_columns_fold cols cols_NoDup df3).
  assert (Hin : forall c, In c cols ->
                          In c (columns df3 ++ absent df3 cols)).
  { intros c Hc. apply in_or_app.
    destruct (contains c df3) eqn:E.
    - left. now apply existsb_eqb_In.
    - right. unfold absent. apply filter_In. split; [assumption|].
      now rewrite E. }
  unfold getitem_list.
  assert (Hall : forallb
            (fun c => contains c
               {| columns := columns df3 ++ absent df3 cols;
                  rows := map (fun r => r ++ map (fun c0 => (c0, CNum 0))
                                                 (absent df3 cols)) (rows df3) |})
            cols = true).
  { apply forallb_forall. intros c Hc. apply existsb_eqb_In. cbn [columns].
    now apply Hin. }
  rewrite Hall. eexists. split; [reflexivity|]. cbn [rows columns]. split.
  - now rewrite !length_map.
  - intros c Hc. apply existsb_eqb_In. cbn [columns].
    apply in_flat_map. exists c. split; [assumption|].
    apply filter_In. split; [now apply Hin | apply String.eqb_refl].
Qed.

Lemma normalize_Ok (city : string) (df out : DataFrame) :
  normalize city df = Ok out ->
  List.length (rows out) = List.length (rows df) /\
  forall c, In c cols -> contains c out = true.
Proof.
  intros H. destruct (normalize_total city df) as [out' [H' Hp]].
  rewrite H in H'. injection H' as <-. exact Hp.
Qed.

(** X1.  On every parsed table, whatever its labels, lines 39-55 raise
    nothing: the result has one record per source record and every
    canonical column. *)
Theorem X1_normalize_never_fails (city : string) (df : DataFrame) :
  exists out,
    normalize city df = Ok out /\
    List.length (rows out) = List.length (rows df) /\
    forall c, In c cols -> contains c out = true.
Proof. exact (normalize_total city df). Qed.

(** ** The combiner: what is read, what is written, what can escape *)

Lemma process_file_Ok_iff
  (content : Type) (read_csv : content -> result DataFrame)
  (f : string * content) :
  (forall e, process_file read_csv f = Raise e <-> read_csv (snd f) = Raise e) /\
  (forall df, read_csv (snd f) = Ok df ->
     exists out, process_file read_csv f = Ok out /\
                 normalize (before_underscore (fst f)) df = Ok out).
Proof.
  unfold process_file. split.
  - intros e. destruct (read_csv (snd f)) as [df|e']; cbn [bind].
    + destruct (normalize_total (before_underscore (fst f)) df) as [out [H _]].
      rewrite H. split; discriminate.
    + reflexivity.
  - intros df ->. cbn [bind].
    destruct (normalize_total (before_underscore (fst f)) df) as [out [H _]].
    exists out. now rewrite H.
Qed.

Lemma process_all_readable
  (content : Type) (read_csv : content -> result DataFrame)
  (files : directory content) :
  List.length (process_all read_csv files) =
  List.length (filter (fun f => match read_csv (snd f) with
                                | Ok _ => true
                                | Raise _ => false
                                end) files).
Proof.
  rewrite process_all_flat_map.
  induction files as [|f files IH]; [reflexivity|].
  cbn [flat_map filter]. rewrite length_app, IH.
  destruct (process_file_Ok_iff content read_csv f) as [Hr Ho].
  destruct (read_csv (snd f)) as [df|e] eqn:E.
  - destruct (Ho df eq_refl) as [out [-> _]]. reflexivity.
  - rewrite (proj2 (Hr e) eq_refl). reflexivity.
Qed.

(** X2.  The loop of lines 34-58 loses no source and keeps no failure: a
    file is skipped exactly when the reader raises on it, with the reader's
    exception, and the frames collected are as many as the files the
    reader parses. *)
Theorem X2_skipped_iff_unreadable
  (content : Type) (read_csv : content -> result DataFrame)
  (files : directory content) :
  (forall f e, process_file read_csv f = Raise e <->
               read_csv (snd f) = Raise e) /\
  List.length (process_all read_csv files) =
  List.length (filter (fun f => match read_csv (snd f) with
                                | Ok _ => true
                                | Raise _ => false
                                end) files).
Proof.
  split.
  - intros f. exact (proj1 (process_file_Ok_iff content read_csv f)).
  - apply process_all_readable.
Qed.

Lemma concat_Raise (frames : list DataFrame) (e : exn) :
  frames <> [] -> concat frames = Raise e ->
  e = InvalidIndexError /\
  exists f, In f frames /\ has_dup (columns f) = true.
Proof.
  intros Hne H. destruct frames as [|f0 rest]; [contradiction|].
  unfold concat in H.
  destruct (forallb (fun f => list_string_eqb (columns f) (columns f0)) rest);
    [discriminate|].
  destruct (existsb (fun f => has_dup (columns f)) (f0 :: rest)) eqn:D;
    [|discriminate].
  injection H as <-. split; [reflexivity|].
  apply existsb_exists in D. destruct D as [f [Hf Hd]]. now exists f.
Qed.

Lemma length_flat_map_sum {A B : Type} (g : A -> list B) (l : list A) :
  List.length (flat_map g l) = list_sum (map (fun a => List.length (g a)) l).
Proof.
  induction l as [|a l IH]; [reflexivity|].
  cbn [flat_map map list_sum fold_right]. rewrite length_app, IH. reflexivity.
Qed.

(** Stacking loses and invents no record. *)
Lemma concat_length (frames : list DataFrame) (df : DataFrame) :
  concat frames = Ok df ->
  List.length (rows df) =
  list_sum (map (fun f => List.length (rows f)) frames).
Proof.
  intros H. destruct frames as [|f0 rest]; [discriminate|].
  unfold concat in H.
  destruct (forallb (fun f => list_string_eqb (columns f) (columns f0)) rest).
  - injection H as <-. exact (length_flat_map_sum rows (f0 :: rest)).
  - destruct (existsb (fun f => has_dup (columns f)) (f0 :: rest));
      [discriminate|].
    injection H as <-. cbn [rows]. rewrite length_map.
    exact (length_flat_map_sum rows (f0 :: rest)).
Qed.

Lemma write_file_others (content : Type) (name : string) (c : content)
  (d : directory content) :
  filter (fun f => negb (String.eqb (fst f) name)) (write_file name c d) =
  filter (fun f => negb (String.eqb (fst f) name)) d.
Proof.
  induction d as [|[n c'] d IH]; cbn [write_file filter fst].
  - now rewrite String.eqb_refl.
  - destruct (String.eqb_spec n name) as [->|Hne]; cbn [filter fst].
    + now rewrite String.eqb_refl.
    + destruct (String.eqb_spec n name); [contradiction|].
      cbn [negb]. now rewrite IH.
Qed.

Section CombinerMore.

Variable content : Type.
Variable read_csv : content -> result DataFrame.
Variable to_csv : DataFrame -> content.

(** The frames a run collects decide its outcome. *)
Lemma combine_unfold (d : directory content) :
  combine_and_clean_data read_csv to_csv (Some d) =
  match process_all read_csv (filter (fun f => glob_match (fst f)) d) with
  | [] => Ok (Some d, None)
  | combined_data =>
      final_df <- concat combined_data ;;
      Ok (Some (write_file output_name (to_csv final_df) d), Some output_name)
  end.
Proof.
  unfold combine_and_clean_data.
  destruct (filter (fun f => glob_match (fst f)) d); reflexivity.
Qed.

Lemma processed_from (d : directory content) (out : DataFrame) :
  In out (process_all read_csv (filter (fun f => glob_match (fst f)) d)) ->
  exists f df,
    In f d /\ glob_match (fst f) = true /\ read_csv (snd f) = Ok df /\
    normalize (before_underscore (fst f)) df = Ok out.
Proof.
  rewrite process_all_flat_map, in_flat_map. intros [f [Hf Hout]].
  apply filter_In in Hf. destruct Hf as [Hin Hg].
  unfold process_file in Hout.
  destruct (read_csv (snd f)) as [df|] eqn:E; cbn [bind] in Hout;
    [|contradiction].
  destruct (normalize (before_underscore (fst f)) df) as [o|] eqn:En;
    [|contradiction].
  destruct Hout as [<-|[]]. now exists f, df.
Qed.

(** X3.  The combiner reports failure without an exception exactly when
    none of the files that match the pattern can be read (there may be
    none at all); whenever it reports failure, for a directory that is there
    or not, it has written nothing. *)
Theorem X3_failure_reported_iff (d : directory content) :
  (combine_and_clean_data read_csv to_csv (Some d) = Ok (Some d, None) <->
   forallb (fun f => negb (glob_match (fst f)) ||
                     match read_csv (snd f) with
                     | Ok _ => false
                     | Raise _ => true
                     end) d = true)
  /\ (forall raw raw',
        combine_and_clean_data read_csv to_csv raw = Ok (raw', None) ->
        raw' = raw).
Proof.
  split.
  - rewrite combine_unfold. split.
    + intros H. apply forallb_forall. intros f Hf.
      destruct (glob_match (fst f)) eqn:G; [|reflexivity]. cbn [negb orb].
      destruct (read_csv (snd f)) as [df|e] eqn:E; [|reflexivity].
      exfalso.
      assert (Hin : In f (filter (fun f => match read_csv (snd f) with
                                           | Ok _ => true
                                           | Raise _ => false
                                           end)
                            (filter (fun f => glob_match (fst f)) d))).
      { apply filter_In. split; [apply filter_In; now split | now rewrite E]. }
      pose proof (process_all_readable content read_csv
                    (filter (fun f => glob_match (fst f)) d)) as Hlen.
      destruct (process_all read_csv (filter (fun f => glob_match (fst f)) d))
        as [|g gs].
      * destruct (filter _ (filter (fun f => glob_match (fst f)) d));
          [contradiction | cbn in Hlen; discriminate Hlen].
      * destruct (concat (g :: gs)); discriminate.
    + intros H.
      pose proof (process_all_readable content read_csv
                    (filter (fun f => glob_match (fst f)) d)) as Hlen.
      rewrite (filter_none (fun f => match read_csv (snd f) with
                                     | Ok _ => true
                                     | Raise _ => false
                                     end)) in Hlen.
      * destruct (process_all read_csv (filter (fun f => glob_match (fst f)) d));
          [reflexivity | cbn in Hlen; discriminate Hlen].
      * intros f Hf. apply filter_In in Hf. destruct Hf as [Hf G].
        rewrite forallb_forall in H. specialize (H f Hf).
        rewrite G in H. cbn [negb orb] in H.
        now destruct (read_csv (snd f)).
  - intros [d0|] raw' H.
    + rewrite combine_unfold in H.
      destruct (process_all read_csv (filter (fun f => glob_match (fst f)) d0))
        as [|g gs].
      * now injection H as <-.
      * destruct (concat (g :: gs)); discriminate.
    + now injection H as <-.
Qed.

(** X4.  The only exception that leaves the combiner is the refusal to
    stack frames, and it needs a source that parsed into a frame with a
    repeated label after normalisation; for a source table with distinct
    labels that means the table carries the water level under at least two
    of its names. *)
Theorem X4_only_alias_clash_aborts (d : directory content) (e : exn) :
  combine_and_clean_data read_csv to_csv (Some d) = Raise e ->
  e = InvalidIndexError /\
  exists f df out,
    In f d /\ glob_match (fst f) = true /\ read_csv (snd f) = Ok df /\
    normalize (before_underscore (fst f)) df = Ok out /\
    has_dup (columns out) = true /\
    (well_formed df = true -> has_dup (columns df) = false ->
     (2 <= List.length (filter is_level_alias (columns df)))%nat).
Proof.
  rewrite combine_unfold. intros H.
  destruct (process_all read_csv (filter (fun f => glob_match (fst f)) d))
    as [|g gs] eqn:EP; [discriminate|].
  destruct (concat (g :: gs)) as [df|e'] eqn:EC; [discriminate|].
  cbn [bind] in H. injection H as <-.
  destruct (concat_Raise (g :: gs) e') as [He [out [Hout Hd]]];
    [discriminate | assumption |].
  split; [assumption|].
  rewrite <- EP in Hout.
  destruct (processed_from d out Hout) as [f [t [Hin [G [Er En]]]]].
  exists f, t, out. repeat (split; [assumption|]).
  intros Hwf Hnd. apply has_dup_NoDup in Hnd.
  destruct (Nat.le_gt_cases
              (List.length (filter is_level_alias (columns t))) 1)
    as [Hle|Hgt]; [|lia].
  rewrite (normalize_canonical _ t Hwf Hnd Hle) in En.
  injection En as <-. cbn [columns] in Hd. discriminate.
Qed.

(** X5.  A run that returns leaves every file but the output as it was, in
    the same place: no source is changed, removed or added. *)
Theorem X5_sources_untouched
  (d d1 : directory content) (r : option string) :
  combine_and_clean_data read_csv to_csv (Some d) = Ok (Some d1, r) ->
  filter (fun f => negb (String.eqb (fst f) output_name)) d1 =
  filter (fun f => negb (String.eqb (fst f) output_name)) d.
Proof.
  rewrite combine_unfold.
  destruct (process_all read_csv (filter (fun f => glob_match (fst f)) d))
    as [|g gs].
  - intros H. now injection H as <- _.
  - destruct (concat (g :: gs)) as [df|]; cbn [bind]; [|discriminate].
    intros H. injection H as <- _. apply write_file_others.
Qed.

Lemma processed_rows_sum (files : directory content) :
  list_sum (map (fun f => List.length (rows f)) (process_all read_csv files)) =
  list_sum (map (fun f => match read_csv (snd f) with
                          | Ok t => List.length (rows t)
                          | Raise _ => 0
                          end) files).
Proof.
  rewrite process_all_flat_map.
  induction files as [|f fs IH]; [reflexivity|].
  cbn [flat_map map]. rewrite map_app, list_sum_app.
  change (list_sum (?x :: ?l)) with (x + list_sum l).
  rewrite IH. f_equal.
  destruct (process_file_Ok_iff content read_csv f) as [Hr Ho].
  destruct (read_csv (snd f)) as [t|e] eqn:E.
  - destruct (Ho t eq_refl) as [out [-> Hn]].
    cbn [map list_sum fold_right]. rewrite Nat.add_0_r.
    exact (proj1 (normalize_Ok _ _ _ Hn)).
  - rewrite (proj2 (Hr e) eq_refl). reflexivity.
Qed.

(** X6.  The table a run writes has exactly as many records as the
    matching sources that parse have together. *)
Theorem X6_records_counted
  (d d1 : directory content) (p : string) :
  combine_and_clean_data read_csv to_csv (Some d) = Ok (Some d1, Some p) ->
  exists df,
    d1 = write_file output_name (to_csv df) d /\
    List.length (rows df) =
    list_sum (map (fun f => match read_csv (snd f) with
                            | Ok t => List.length (rows t)
                            | Raise _ => 0
                            end)
                  (filter (fun f => glob_match (fst f)) d)).
Proof.
  intros H.
  destruct (combine_inv content read_csv to_csv d d1 p H) as [df [Hc [Hd _]]].
  exists df. split; [assumption|].
  rewrite (concat_length _ df Hc). apply processed_rows_sum.
Qed.

End CombinerMore.

Lemma X4_only_alias_clash_aborts_witness :
  combine_and_clean_data stub_read stub_write (Some two_sources) =
    Raise InvalidIndexError /\
  exists f df out,
    In f two_sources /\ glob_match (fst f) = true /\
    stub_read (snd f) = Ok df /\
    normalize (before_underscore (fst f)) df = Ok out /\
    has_dup (columns out) = true.
Proof.
  split; [reflexivity|].
  destruct (X4_only_alias_clash_aborts (option DataFrame) stub_read stub_write
              two_sources InvalidIndexError eq_refl)
    as [_ [f [df [out [H1 [H2 [H3 [H4 [H5 _]]]]]]]]].
  exists f, df, out. repeat (split; [assumption|]). assumption.
Defined.

Lemma X5_sources_untouched_witness :
  combine_and_clean_data stub_read stub_write (Some three_files) =
    Ok (Some after_first_run, Some output_name) /\
  filter (fun f => negb (String.eqb (fst f) output_name)) after_first_run =
  filter (fun f => negb (String.eqb (fst f) output_name)) three_files.
Proof.
  split; [reflexivity|].
  exact (X5_sources_untouched (option DataFrame) stub_read stub_write
           three_files after_first_run (Some output_name) eq_refl).
Defined.

Lemma X6_records_counted_witness :
  combine_and_clean_data stub_read stub_write (Some three_files) =
    Ok (Some after_first_run, Some output_name) /\
  exists df,
    after_first_run = write_file output_name (stub_write df) three_files /\
    List.length (rows df) = 2.
Proof.
  split; [reflexivity|].
  destruct (X6_records_counted (option DataFrame) stub_read stub_write
              three_files after_first_run output_name eq_refl) as [df [H1 H2]].
  exists df. split; [exact H1 | exact H2].
Defined.

(** ** Extraction: what it refuses and what it returns *)

(** Lines 21-26 as a whole: the only failure is a missing column. *)
Lemma extract_cases (df : DataFrame) :
  extract df =
  if forallb (fun c => contains c df) required_fields
  then Ok ({| columns := flat_map (fun c => filter (String.eqb c) (columns df))
                                  required_cols;
              rows := map (pick required_cols) (filter complete (rows df)) |},
           map (value "Water_Level_m") (filter complete (rows df)))
  else Raise KeyError.
Proof.
  unfold extract, getitem_list, getitem.
  change (forallb (fun c => contains c df) required_fields)
    with (contains "Water_Level_m" df &&
          forallb (fun c => contains c df) required_cols).
  change (forallb (fun c => contains c (dropna df)) required_cols)
    with (forallb (fun c => contains c df) required_cols).
  change (contains "Water_Level_m" (dropna df))
    with (contains "Water_Level_m" df).
  destruct (forallb (fun c => contains c df) required_cols);
    destruct (contains "Water_Level_m" df); reflexivity.
Qed.

(** X7.  What a run writes can always be trained on and served: the table
    has every canonical column, so extraction from it does not fail for a
    missing column and the service finds its [Date] column. *)
Theorem X7_output_fits_extraction
  (content : Type) (read_csv : content -> result DataFrame)
  (to_csv : DataFrame -> content)
  (d d1 : directory content) (p : string) :
  combine_and_clean_data read_csv to_csv (Some d) = Ok (Some d1, Some p) ->
  exists df,
    d1 = write_file output_name (to_csv df) d /\
    (forall c, In c cols -> contains c df = true) /\
    exists X y, extract df = Ok (X, y).
Proof.
  intros H.
  destruct (combine_inv content read_csv to_csv d d1 p H) as [df [Hc [Hd _]]].
  exists df. split; [assumption|].
  assert (Hcols : forall c, In c cols -> contains c df = true).
  { destruct (concat_Ok_same_columns _ df
                (processed_labels content read_csv _) Hc) as [Hne [L HL]].
    rewrite (concat_same_columns _ L Hne HL) in Hc. injection Hc as <-.
    destruct (process_all read_csv (filter (fun f => glob_match (fst f)) d))
      as [|g gs] eqn:EP; [contradiction|].
    assert (Hg : In g (process_all read_csv
                         (filter (fun f => glob_match (fst f)) d)))
      by (rewrite EP; now left).
    destruct (processed_from content read_csv d g Hg)
      as [f [t [_ [_ [_ Hn]]]]].
    intros c Hin. unfold contains. cbn [columns].
    rewrite <- (HL g (or_introl eq_refl)).
    exact (proj2 (normalize_Ok _ _ _ Hn) c Hin). }
  split; [assumption|].
  rewrite extract_cases.
  assert (Hall : forallb (fun c => contains c df) required_fields = true).
  { apply forallb_forall. intros c Hin. apply Hcols.
    simpl in Hin. simpl. tauto. }
  rewrite Hall. eexists. eexists. reflexivity.
Qed.

Lemma X7_output_fits_extraction_witness :
  combine_and_clean_data stub_read stub_write (Some three_files) =
    Ok (Some after_first_run, Some output_name) /\
  exists df,
    after_first_run = write_file output_name (stub_write df) three_files /\
    exists X y, extract df = Ok (X, y).
Proof.
  split; [reflexivity|].
  destruct (X7_output_fits_extraction (option DataFrame) stub_read stub_write
              three_files after_first_run output_name eq_refl)
    as [df [H1 [_ H2]]].
  exists df. split; [exact H1 | exact H2].
Defined.

(** X8.  Extraction fails in one way only: with KeyError, exactly when the
    dataset lacks one of the six feature columns or the water level.  The
    training script then reports a missing column; it reports a missing
    dataset only when there is no file. *)
Theorem X8_extract_key_error (df : DataFrame) :
  (forallb (fun c => contains c df) required_fields = false <->
   extract df = Raise KeyError)
  /\ (forall e, extract df = Raise e -> e = KeyError)
  /\ (forallb (fun c => contains c df) required_fields = false <->
      trainer_prologue (Dataset df) = RequiredColumnMissing)
  /\ (forall f, trainer_prologue f = DatasetNotFound <-> f = NoDataset).
Proof.
  unfold trainer_prologue. rewrite extract_cases.
  destruct (forallb (fun c => contains c df) required_fields).
  - split; [split; discriminate|]. split; [discriminate|].
    split; [split; discriminate|].
    intros [| |t]; try (split; (reflexivity || discriminate)).
    split; [|discriminate]. rewrite extract_cases.
    destruct (forallb (fun c => contains c t) required_fields); discriminate.
  - split; [split; reflexivity|]. split; [now intros e [= <-]|].
    split; [split; reflexivity|].
    intros [| |t]; try (split; (reflexivity || discriminate)).
    split; [|discriminate]. rewrite extract_cases.
    destruct (forallb (fun c => contains c t) required_fields); discriminate.
Qed.

Lemma complete_pick (cs : list string) (r : row) :
  complete r = true -> complete (pick cs r) = true.
Proof.
  unfold complete, pick. rewrite !forallb_forall. intros H p Hp.
  apply in_flat_map in Hp. destruct Hp as [c [_ Hp]].
  apply filter_In in Hp. apply H. tauto.
Qed.

Lemma lookup_In (c : string) (r : row) (v : cell) :
  lookup c r = Some v -> In (c, v) r.
Proof.
  induction r as [|[l x] r IH]; cbn [lookup]; [discriminate|].
  destruct (String.eqb_spec c l) as [->|_].
  - intros [= ->]. now left.
  - intros H. right. now apply IH.
Qed.

Lemma pick_labels (cs : list string) (r : row) (p : string * cell) :
  In p (pick cs r) -> In (fst p) cs /\ In p r.
Proof.
  unfold pick. intros H. apply in_flat_map in H. destruct H as [c [Hc Hp]].
  apply filter_In in Hp. destruct Hp as [Hp He].
  apply String.eqb_eq in He. subst c. now split.
Qed.

(** X9.  What extraction returns from a well-formed dataset is a clean
    training set: no feature cell and no target is missing, every cell of X
    belongs to one of the six feature columns, and X and y have the same
    length. *)
Theorem X9_extraction_is_clean (df X : DataFrame) (y : list cell) :
  well_formed df = true ->
  extract df = Ok (X, y) ->
  (forall r, In r (rows X) ->
     complete r = true /\ forall p, In p r -> In (fst p) required_cols)
  /\ (forall v, In v y -> isna v = false)
  /\ List.length (rows X) = List.length y.
Proof.
  intros Hwf H. rewrite extract_cases in H.
  destruct (forallb (fun c => contains c df) required_fields) eqn:E;
    [|discriminate].
  injection H as <- <-. cbn [rows].
  split; [|split].
  - intros r Hr. apply in_map_iff in Hr. destruct Hr as [r0 [<- Hr0]].
    apply filter_In in Hr0. destruct Hr0 as [_ Hc]. split.
    + now apply complete_pick.
    + intros p Hp. exact (proj1 (pick_labels _ _ _ Hp)).
  - intros v Hv. apply in_map_iff in Hv. destruct Hv as [r [<- Hr]].
    apply filter_In in Hr. destruct Hr as [Hr Hc].
    cbn [required_fields forallb] in E. apply andb_true_iff in E.
    destruct E as [Hw _].
    apply well_formed_Forall in Hwf. rewrite Forall_forall in Hwf.
    unfold contains in Hw. rewrite <- (Hwf r Hr) in Hw.
    apply lookup_In_labels in Hw. unfold value.
    destruct (lookup "Water_Level_m" r) as [v|] eqn:El; [|congruence].
    apply lookup_In in El. unfold complete in Hc.
    rewrite forallb_forall in Hc. specialize (Hc _ El).
    now apply negb_true_iff in Hc.
  - now rewrite !length_map.
Qed.

Lemma X9_extraction_is_clean_witness :
  well_formed sample_dataset = true /\
  exists X y,
    extract sample_dataset = Ok (X, y) /\
    (forall v, In v y -> isna v = false) /\
    List.length (rows X) = List.length y.
Proof.
  split; [reflexivity|]. eexists. eexists. split; [reflexivity|].
  destruct (X9_extraction_is_clean sample_dataset _ _ eq_refl eq_refl)
    as [_ [H1 H2]].
  split; [exact H1 | exact H2].
Defined.

(** ** Point prediction: the frame given to the model *)

Lemma fill_then_select (cs : list string) (df : DataFrame) :
  NoDup cs ->
  exists out,
    getitem_list cs (fold_left ensure_column cs df) = Ok out /\
    List.length (rows out) = List.length (rows df) /\
    forall c, In c cs -> contains c out = true.
Proof.
  intros Hnd. rewrite (ensure_columns_fold cs Hnd df). unfold getitem_list.
  assert (Hin : forall c, In c cs -> In c (columns df ++ absent df cs)).
  { intros c Hc. apply in_or_app. destruct (contains c df) eqn:E.
    - left. now apply existsb_eqb_In.
    - right. unfold absent. apply filter_In. split; [assumption|].
      now rewrite E. }
  assert (Hall : forallb
            (fun c => contains c
               {| columns := columns df ++ absent df cs;
                  rows := map (fun r => r ++ map (fun c0 => (c0, CNum 0))
                                                 (absent df cs)) (rows df) |})
            cs = true).
  { apply forallb_forall. intros c Hc. apply existsb_eqb_In. cbn [columns].
    now apply Hin. }
  rewrite Hall. eexists. split; [reflexivity|]. cbn [rows columns]. split.
  - now rewrite !length_map.
  - intros c Hc. apply existsb_eqb_In. cbn [columns].
    apply in_flat_map. exists c. split; [assumption|].
    apply filter_In. split; [now apply Hin | apply String.eqb_refl].
Qed.

(** X10.  Lines 55-63 raise nothing, whatever the feature dict holds: the
    frame that is built for the model has exactly one record and each of
    the six required columns, so the selection of line 63 cannot fail with
    KeyError. *)
Theorem X10_feature_frame_total (features : row) :
  exists df,
    prepare_features features = Ok df /\
    List.length (rows df) = 1 /\
    forall c, In c required_cols -> contains c df = true.
Proof.
  unfold prepare_features.
  destruct (fill_then_select required_cols (from_record features)
              required_cols_NoDup) as [out [H [Hlen Hc]]].
  exists out. split; [exact H|]. split; [exact Hlen | exact Hc].
Qed.

(** ** City queries *)

Lemma city_matches_lower (c1 c2 : string) (r : row) :
  lower c1 = lower c2 -> city_matches c1 r = city_matches c2 r.
Proof. intros H. unfold city_matches. now rewrite H. Qed.

(** X12.  Both city operations read the city name up to ASCII letter case
    only: two non-empty names that lower to the same text get the same
    answer, from any server state. *)
Theorem X12_city_name_case
  (strftime : Z -> option string) (st : server) (c1 c2 : string) :
  String.eqb (lower c1) (lower c2) = true ->
  negb (String.eqb c1 "") = true ->
  negb (String.eqb c2 "") = true ->
  get_historical_data strftime st (Some c1) =
  get_historical_data strftime st (Some c2)
  /\ predict_by_city st (Some c1) = predict_by_city st (Some c2).
Proof.
  intros He H1 H2. apply String.eqb_eq in He.
  destruct c1 as [|a1 s1]; [discriminate|].
  destruct c2 as [|a2 s2]; [discriminate|].
  assert (Hf : forall l, filter (city_matches (String a1 s1)) l =
                         filter (city_matches (String a2 s2)) l).
  { intros l. apply filter_ext. intros r. now apply city_matches_lower. }
  split.
  - unfold get_historical_data. destruct (historical_data st) as [hd|];
      [|reflexivity].
    now rewrite Hf.
  - unfold predict_by_city. destruct (model st) as [m|]; [|reflexivity].
    destruct (historical_data st) as [hd|]; [|reflexivity].
    now rewrite Hf.
Qed.

Lemma X12_city_name_case_witness :
  String.eqb (lower "PuNe") (lower "pune") = true /\
  negb (String.eqb "PuNe" "") = true /\
  negb (String.eqb "pune" "") = true /\
  get_historical_data stub_strftime
    (startup stub_to_datetime (Artifact echo_first) (Dataset sample_dataset))
    (Some "PuNe") =
  get_historical_data stub_strftime
    (startup stub_to_datetime (Artifact echo_first) (Dataset sample_dataset))
    (Some "pune").
Proof.
  split; [reflexivity|]. split; [reflexivity|]. split; [reflexivity|].
  exact (proj1 (X12_city_name_case stub_strftime
                  (startup stub_to_datetime (Artifact echo_first)
                           (Dataset sample_dataset))
                  "PuNe" "pune" eq_refl eq_refl eq_refl)).
Defined.

(** ** The loaded dataset *)

(** X13.  After the load of lines 36-38 of a well-formed table with a
    [Date] column, the labels are those of the file, and the records are
    those of the file whose date parsed, one for one: each holds the
    timestamp of its date and every other cell as read. *)
Theorem X13_loaded_dates
  (to_datetime : cell -> option Z) (df hd : DataFrame) :
  well_formed df = true ->
  contains "Date" df = true ->
  load_dataset to_datetime (Dataset df) = Some hd ->
  columns hd = columns df
  /\ List.length (rows hd) =
     List.length (filter (parsed to_datetime) (rows df))
  /\ forall r, In r (rows hd) ->
       exists r0 t,
         In r0 (rows df) /\ to_datetime (value "Date" r0) = Some t /\
         value "Date" r = CDate t /\
         forall c, c <> "Date" -> value c r = value c r0.
Proof.
  intros Hwf Hd H. unfold load_dataset in H. rewrite Hd in H.
  injection H as <-. unfold dropna_subset, map_column. cbn [columns rows].
  assert (Hdate : forall r0, In r0 (rows df) ->
            value "Date" (map (map_cell "Date" (coerce_date to_datetime)) r0)
            = coerce_date to_datetime (value "Date" r0)).
  { intros r0 Hr0. destruct (has_label "Date" df r0 Hwf Hd Hr0) as [x Hx].
    unfold value. now rewrite lookup_map_cell_same, Hx. }
  split; [reflexivity|]. split.
  - rewrite filter_map_comm, length_map.
    apply (f_equal (@List.length row)).
    apply filter_ext_in. intros r0 Hr0. rewrite (Hdate r0 Hr0).
    unfold parsed, coerce_date. now destruct (to_datetime (value "Date" r0)).
  - intros r Hr. apply filter_In in Hr. destruct Hr as [Hr Hna].
    apply in_map_iff in Hr. destruct Hr as [r0 [<- Hr0]].
    rewrite (Hdate r0 Hr0) in *. unfold coerce_date in *.
    destruct (to_datetime (value "Date" r0)) as [t|] eqn:Et; [|discriminate].
    exists r0, t. repeat split; try assumption.
    intros c Hc. unfold value. now rewrite lookup_map_cell_other by congruence.
Qed.

Lemma X13_loaded_dates_witness :
  well_formed sample_dataset = true /\
  contains "Date" sample_dataset = true /\
  exists hd,
    load_dataset stub_to_datetime (Dataset sample_dataset) = Some hd /\
    List.length (rows hd) = 2.
Proof.
  split; [reflexivity|]. split; [reflexivity|].
  eexists. split; [reflexivity|].
  exact (proj1 (proj2 (X13_loaded_dates stub_to_datetime sample_dataset _
                         eq_refl eq_refl eq_refl))).
Defined.

Lemma existsb_filter_nil {A : Type} (p : A -> bool) (l : list A) :
  existsb p l = false -> filter p l = [].
Proof.
  intros H. apply filter_none. intros x Hx.
  destruct (p x) eqn:E; [|reflexivity].
  assert (existsb p l = true) by (apply existsb_exists; now exists x).
  congruence.
Qed.

(** X14.  A dataset file without a [Date] column, the city of every record
    a string, stays loaded as it was read, because the frame is bound to
    the global before the dates are parsed.  The historical lookup of a city that has records then ends in
    an exception no handler catches (a 500 of the framework); an unknown
    city is still answered 404. *)
Theorem X14_dataset_without_date
  (to_datetime : cell -> option Z) (strftime : Z -> option string)
  (a : artifact) (df : DataFrame) (city : string) :
  contains "Date" df = false ->
  contains "City" df = true ->
  forallb (fun r => is_string (value "City" r)) (rows df) = true ->
  negb (String.eqb city "") = true ->
  historical_data (startup to_datetime a (Dataset df)) = Some df
  /\ get_historical_data strftime (startup to_datetime a (Dataset df)) (Some city)
     = if existsb (city_matches city) (rows df)
       then (500, Error InternalServerError)
       else (404, Error CityNotFound).
Proof.
  intros Hd Hc Hstr Hcity.
  assert (Hload : historical_data (startup to_datetime a (Dataset df)) = Some df).
  { unfold startup, load_dataset. cbn [historical_data]. now rewrite Hd. }
  split; [assumption|].
  unfold get_historical_data. rewrite Hload.
  destruct city as [|ch s]; [discriminate|].
  unfold getitem. rewrite Hc. cbn [bind].
  rewrite (accessor_strings (rows df) Hstr). cbn [bind rows].
  destruct (existsb (city_matches (String ch s)) (rows df)) eqn:E.
  - apply existsb_exists in E. destruct E as [r [Hr Hm]].
    assert (Hin : In r (filter (city_matches (String ch s)) (rows df)))
      by (apply filter_In; now split).
    destruct (filter (city_matches (String ch s)) (rows df)) as [|h hs];
      [contradiction|].
    unfold getitem_list. cbn [forallb].
    change (contains "Date" {| columns := columns df; rows := h :: hs |})
      with (contains "Date" df).
    rewrite Hd. reflexivity.
  - now rewrite (existsb_filter_nil _ _ E).
Qed.

Lemma X14_dataset_without_date_witness :
  contains "Date" dateless_dataset = false /\
  contains "City" dateless_dataset = true /\
  forallb (fun r => is_string (value "City" r)) (rows dateless_dataset) = true /\
  negb (String.eqb "pune" "") = true /\
  get_historical_data stub_strftime
    (startup stub_to_datetime NoArtifact (Dataset dateless_dataset))
    (Some "pune") = (500, Error InternalServerError).
Proof.
  split; [reflexivity|]. split; [reflexivity|]. split; [reflexivity|].
  split; [reflexivity|].
  exact (proj2 (X14_dataset_without_date stub_to_datetime stub_strftime
                  NoArtifact dateless_dataset "pune" eq_refl eq_refl eq_refl
                  eq_refl)).
Defined.

(** ** The city average with missing values *)

Lemma numeric_floats (cs : list cell) :
  forallb is_float_cell cs = true ->
  numeric cs = Ok (map number (filter is_number cs)).
Proof.
  induction cs as [|c cs IH]; [reflexivity|].
  cbn [forallb]. intros H. apply andb_true_iff in H. destruct H as [Hc Hcs].
  destruct c; try discriminate; cbn [numeric filter is_number].
  - rewrite (IH Hcs). reflexivity.
  - exact (IH Hcs).
Qed.

Lemma mean_present (cs : list cell) :
  forallb is_float_cell cs = true -> mean cs = Ok (present_mean cs).
Proof.
  intros H. unfold mean, present_mean. rewrite (numeric_floats cs H).
  cbn [bind]. now destruct (filter is_number cs).
Qed.

Lemma average_present
  (to_datetime : cell -> option Z) (hits : list row) :
  forallb (fun r => forallb (fun c => is_float_cell (value c r)) required_cols)
          hits = true ->
  mapM (fun c =>
          x <- mean (map (value c)
                       (map (pick required_cols)
                          (map (map (map_cell "Date" (coerce_date to_datetime)))
                               hits))) ;;
          Ok (c, cell_of_float x))
       required_cols =
  Ok (map (fun c => (c, cell_of_float (present_mean (map (value c) hits))))
          required_cols).
Proof.
  intros Hnum. apply mapM_Ok. intros c Hc.
  assert (Hcol : map (value c)
                   (map (pick required_cols)
                      (map (map (map_cell "Date" (coerce_date to_datetime)))
                           hits)) = map (value c) hits).
  { rewrite !map_map. apply map_ext. intros r.
    rewrite (value_pick c required_cols _ Hc). unfold value.
    rewrite lookup_map_cell_other; [reflexivity|].
    intros <-. simpl in Hc. repeat (destruct Hc as [Hc|Hc]; [discriminate|]).
    contradiction. }
  rewrite Hcol. rewrite mean_present; [reflexivity|].
  rewrite forallb_forall. intros x Hx. apply in_map_iff in Hx.
  destruct Hx as [r [<- Hr]]. rewrite forallb_forall in Hnum.
  specialize (Hnum r Hr). rewrite forallb_forall in Hnum. now apply Hnum.
Qed.

(** X15.  A missing feature value does not spoil a city-averaged
    prediction.  When the features of the city's loaded records are numbers
    or missing, the model is fed, for each feature, the mean of the values
    that are present, and NaN for a feature no record has a value for; the
    answer is 200. *)
Theorem X15_city_average_skips_missing
  (to_datetime : cell -> option Z) (m : regressor) (df : DataFrame)
  (city : string) :
  well_formed df = true ->
  has_dup (columns df) = false ->
  forallb (fun c => contains c df) ("Date" :: "City" :: required_cols) = true ->
  negb (String.eqb city "") = true ->
  (1 <=? List.length (served to_datetime city df))%nat = true ->
  forallb (fun r => forallb (fun c => is_float_cell (value c r)) required_cols)
          (served to_datetime city df) = true ->
  predict_by_city (startup to_datetime (Artifact m) (Dataset df)) (Some city) =
  (200, Prediction
          (m (map (fun c => present_mean
                              (map (value c) (served to_datetime city df)))
                  required_cols))).
Proof.
  intros Hwf Hnd Hall Hcity Hsome Hnum. apply has_dup_NoDup in Hnd.
  change (forallb (fun c => contains c df) ("Date" :: "City" :: required_cols))
    with (contains "Date" df && (contains "City" df &&
            forallb (fun c => contains c df) required_cols)) in Hall.
  apply andb_true_iff in Hall. destruct Hall as [Hd Hall].
  apply andb_true_iff in Hall. destruct Hall as [Hc Hreq].
  unfold predict_by_city, startup.
  cbn [model historical_data load_model load_dataset].
  rewrite Hd. destruct city as [|ch s]; [discriminate|].
  unfold getitem.
  replace (contains "City" (dropna_subset "Date"
             (map_column "Date" (coerce_date to_datetime) df)))
    with true by (symmetry; exact Hc).
  cbn [bind].
  rewrite (loaded_accessor_served to_datetime (String ch s) df Hwf Hd)
    by (destruct (served to_datetime (String ch s) df); discriminate).
  cbn [bind rows]. rewrite (loaded_city_rows to_datetime (String ch s) df Hwf Hd).
  destruct (served to_datetime (String ch s) df) as [|h hits];
    [discriminate|].
  set (hs := h :: hits) in *.
  rewrite (getitem_list_NoDup required_cols
             {| columns := columns (dropna_subset "Date"
                             (map_column "Date" (coerce_date to_datetime) df));
                rows := map (map (map_cell "Date" (coerce_date to_datetime))) hs |}
             Hnd Hreq).
  cbn [bind rows columns].
  rewrite (average_present to_datetime hs Hnum). cbn [bind].
  unfold model_predict, from_record. cbn [rows mapM bind].
  rewrite map_map. cbn [snd].
  rewrite (mapM_Ok as_float
             (fun c => match c with CNum q => Some q | _ => None end)
             (map (fun c => cell_of_float (present_mean (map (value c) hs)))
                  required_cols)).
  - cbn [bind first]. rewrite map_map.
    rewrite (map_ext _ (fun c => present_mean (map (value c) hs))).
    + subst hs. reflexivity.
    + intros c. now destruct (present_mean (map (value c) hs)).
  - intros c Hin. apply in_map_iff in Hin. destruct Hin as [c0 [<- _]].
    now destruct (present_mean (map (value c0) hs)).
Qed.

Lemma X15_city_average_skips_missing_witness :
  well_formed gappy_dataset = true /\
  has_dup (columns gappy_dataset) = false /\
  forallb (fun c => contains c gappy_dataset)
          ("Date" :: "City" :: required_cols) = true /\
  negb (String.eqb "pune" "") = true /\
  (1 <=? List.length (served stub_to_datetime "pune" gappy_dataset))%nat = true /\
  forallb (fun r => forallb (fun c => is_float_cell (value c r)) required_cols)
          (served stub_to_datetime "pune" gappy_dataset) = true /\
  exists q,
    predict_by_city
      (startup stub_to_datetime (Artifact echo_first) (Dataset gappy_dataset))
      (Some "pune") = (200, Prediction q) /\
    Qeq q (10 # 1).
Proof.
  split; [reflexivity|]. split; [reflexivity|]. split; [reflexivity|].
  split; [reflexivity|]. split; [reflexivity|]. split; [reflexivity|].
  eexists. split.
  - exact (X15_city_average_skips_missing stub_to_datetime echo_first
             gappy_dataset "pune" eq_refl eq_refl eq_refl eq_refl eq_refl
             eq_refl).
  - reflexivity.
Defined.

(** ** Normalising twice *)

Lemma canonical_row_fixed (city : string) (r : row) :
  map fst r = cols ->
  canonical_row city r = map (map_cell "City" (fun _ => CStr city)) r.
Proof.
  intros H. unfold cols in H.
  do 9 (destruct r as [|[? ?] r]; [discriminate|]).
  destruct r; [|discriminate].
  cbn [map fst] in H. injection H as -> -> -> -> -> -> -> -> ->.
  reflexivity.
Qed.

(** X16.  A well-formed table that already has the canonical columns in
    canonical order goes through the normaliser unchanged but for its city:
    the result is the table with [City] set to the label. *)
Theorem X16_canonical_table_kept (city : string) (df : DataFrame) :
  well_formed df = true ->
  list_string_eqb (columns df) cols = true ->
  normalize city df = Ok (setitem "City" (CStr city) df).
Proof.
  intros Hwf Hcols. apply list_string_eqb_eq in Hcols.
  rewrite (normalize_canonical city df Hwf).
  - f_equal. unfold setitem, contains, map_column. rewrite Hcols.
    cbn [existsb]. change (existsb (String.eqb "City") cols) with true.
    cbv iota. f_equal. apply map_ext_in. intros r Hr.
    apply canonical_row_fixed. rewrite <- Hcols.
    apply well_formed_Forall in Hwf. rewrite Forall_forall in Hwf.
    now apply Hwf.
  - rewrite Hcols. exact cols_NoDup.
  - rewrite Hcols. cbn. lia.
Qed.

Lemma X16_canonical_table_kept_witness :
  well_formed sample_dataset = true /\
  list_string_eqb (columns sample_dataset) cols = true /\
  normalize "Goa" sample_dataset =
  Ok (setitem "City" (CStr "Goa") sample_dataset).
Proof.
  split; [reflexivity|]. split; [reflexivity|].
  exact (X16_canonical_table_kept "Goa" sample_dataset eq_refl eq_refl).
Defined.

(** ** File names: discovery and the city label *)

Lemma before_underscore_append (city rest : string) :
  no_underscore city = true ->
  before_underscore (city ++ String "_" rest) = city.
Proof.
  induction city as [|a city IH]; cbn [no_underscore append before_underscore].
  - reflexivity.
  - intros H. apply andb_true_iff in H. destruct H as [Ha Hc].
    apply negb_true_iff in Ha. rewrite Ha. now rewrite IH.
Qed.

Lemma before_underscore_clean (s : string) :
  no_underscore (before_underscore s) = true.
Proof.
  induction s as [|a s IH]; cbn [before_underscore]; [reflexivity|].
  destruct (Ascii.eqb a "_") eqn:E; [reflexivity|].
  cbn [no_underscore]. now rewrite E, IH.
Qed.

Lemma before_underscore_prefix (s : string) :
  prefix (before_underscore s) s = true.
Proof.
  induction s as [|a s IH]; cbn [before_underscore]; [reflexivity|].
  destruct (Ascii.eqb a "_"); [reflexivity|].
  change (prefix (String a (before_underscore s)) (String a s))
    with (match ascii_dec a a with
          | left _ => prefix (before_underscore s) s
          | right _ => false
          end).
  destruct (ascii_dec a a); [assumption | contradiction].
Qed.

(** X17.  The city label of line 38 is the part of the file name before its
    first underscore: it never contains an underscore, it is a prefix of
    the name, and a name made of a city without underscore, an underscore
    and anything else gives that city back. *)
Theorem X17_city_label (city rest s : string) :
  no_underscore city = true ->
  before_underscore (city ++ String "_" rest) = city
  /\ no_underscore (before_underscore s) = true
  /\ prefix (before_underscore s) s = true.
Proof.
  intros H. split; [now apply before_underscore_append|].
  split; [apply before_underscore_clean | apply before_underscore_prefix].
Qed.

Lemma X17_city_label_witness :
  no_underscore "Mumbai" = true /\
  before_underscore ("Mumbai" ++ String "_" "detailed_groundwater_data.csv")
  = "Mumbai".
Proof.
  split; [reflexivity|].
  exact (proj1 (X17_city_label "Mumbai" "detailed_groundwater_data.csv" ""
                  eq_refl)).
Defined.

Lemma substring_append_skip (a b : string) (k m : nat) :
  substring (String.length a + k) m (a ++ b) = substring k m b.
Proof.
  induction a as [|c a IH]; [reflexivity|].
  cbn [String.length append Nat.add substring]. exact IH.
Qed.

Lemma substring_append_take (a b : string) :
  substring 0 (String.length a) (a ++ b) = a.
Proof.
  induction a as [|c a IH]; cbn [String.length append substring].
  - now destruct b.
  - now rewrite IH.
Qed.

Lemma length_string_append (a b : string) :
  String.length (a ++ b) = String.length a + String.length b.
Proof.
  induction a as [|c a IH]; cbn [String.length append]; [reflexivity|].
  now rewrite IH.
Qed.

Lemma string_append_assoc (a b c : string) :
  ((a ++ b) ++ c)%string = (a ++ (b ++ c))%string.
Proof.
  induction a as [|x a IH]; cbn [append]; [reflexivity | now rewrite IH].
Qed.

Lemma index_0_cons (s1 : string) (c : ascii) (s2 : string) :
  index 0 s1 (String c s2) =
  if prefix s1 (String c s2) then Some 0
  else match index 0 s1 s2 with Some n => Some (S n) | None => None end.
Proof. reflexivity. Qed.

Lemma has_substring_append (a b : string) :
  has_substring "_detailed_groundwater_data"
    (a ++ "_detailed_groundwater_data" ++ b) = true.
Proof.
  unfold has_substring.
  assert (H : exists n, index 0 "_detailed_groundwater_data"
                          (a ++ "_detailed_groundwater_data" ++ b) = Some n).
  { induction a as [|c a [n IH]].
    - exists 0.
      change ("" ++ "_detailed_groundwater_data" ++ b)%string
        with (String "_" ("detailed_groundwater_data" ++ b))%string.
      rewrite index_0_cons.
      rewrite (proj2 (prefix_correct "_detailed_groundwater_data"
                        (String "_" ("detailed_groundwater_data" ++ b))));
        [reflexivity
        | exact (substring_append_take "_detailed_groundwater_data" b)].
    - change (String c a ++ "_detailed_groundwater_data" ++ b)%string
        with (String c (a ++ "_detailed_groundwater_data" ++ b))%string.
      rewrite index_0_cons, IH.
      destruct (prefix "_detailed_groundwater_data"
                  (String c (a ++ "_detailed_groundwater_data" ++ b)));
        eexists; reflexivity. }
  destruct H as [n ->]. reflexivity.
Qed.

(** X18.  Discovery and labelling agree with the naming convention: for a
    city name without underscore that does not start with a dot, the file
    [<city>_detailed_groundwater_data<anything>.csv] matches the pattern of
    line 25, and the label taken from it at line 38 is the city. *)
Theorem X18_convention_discovered (city extra : string) :
  no_underscore city = true ->
  prefix "." city = false ->
  let name := (city ++ "_detailed_groundwater_data" ++ extra ++ ".csv")%string in
  glob_match name = true /\ before_underscore name = city.
Proof.
  intros Hu Hdot name. split.
  - unfold glob_match.
    assert (Hlen : String.length name =
                   String.length (city ++ "_detailed_groundwater_data" ++ extra)
                   + 4).
    { subst name. rewrite !length_string_append. cbn [String.length]. lia. }
    assert (Hname : name =
              ((city ++ "_detailed_groundwater_data" ++ extra) ++ ".csv")%string).
    { subst name. now rewrite !string_append_assoc. }
    apply andb_true_iff. split; [apply andb_true_iff; split|].
    + apply negb_true_iff. subst name. destruct city as [|c city].
      * reflexivity.
      * change (prefix "." (String c city))
          with (match ascii_dec "." c with
                | left _ => prefix "" city
                | right _ => false
                end) in Hdot.
        change (prefix "." (String c city ++ "_detailed_groundwater_data"
                              ++ extra ++ ".csv"))
          with (match ascii_dec "." c with
                | left _ => prefix "" (city ++ "_detailed_groundwater_data"
                                          ++ extra ++ ".csv")
                | right _ => false
                end).
        destruct (ascii_dec "." c); [|reflexivity].
        destruct city; discriminate.
    + unfold ends_with. rewrite Hlen. cbn [String.length].
      apply andb_true_iff. split; [apply Nat.leb_le; lia|].
      replace (String.length (city ++ "_detailed_groundwater_data" ++ extra)
               + 4 - 4)
        with (String.length (city ++ "_detailed_groundwater_data" ++ extra) + 0)
        by lia.
      rewrite Hname, substring_append_skip. reflexivity.
    + rewrite Hlen.
      replace (String.length (city ++ "_detailed_groundwater_data" ++ extra)
               + 4 - 4)
        with (String.length (city ++ "_detailed_groundwater_data" ++ extra))
        by lia.
      rewrite Hname, substring_append_take. apply has_substring_append.
  - subst name.
    change (city ++ "_detailed_groundwater_data" ++ extra ++ ".csv")%string
      with (city ++ String "_"
                      ("detailed_groundwater_data" ++ extra ++ ".csv"))%string.
    now apply before_underscore_append.
Qed.

Lemma X18_convention_discovered_witness :
  no_underscore "Navi Mumbai" = true /\
  prefix "." "Navi Mumbai" = false /\
  glob_match "Navi Mumbai_detailed_groundwater_data_2023.csv" = true /\
  before_underscore "Navi Mumbai_detailed_groundwater_data_2023.csv"
  = "Navi Mumbai".
Proof.
  split; [reflexivity|]. split; [reflexivity|].
  exact (X18_convention_discovered "Navi Mumbai" "_2023" eq_refl eq_refl).
Defined.

(** ** Clean sources *)

Lemma canonical_frame_well_formed (city : string) (rs : list row) :
  well_formed {| columns := cols; rows := map (canonical_row city) rs |} = true.
Proof.
  apply well_formed_Forall. apply Forall_forall. cbn [rows columns].
  intros r Hr. apply in_map_iff in Hr. destruct Hr as [r0 [<- _]].
  reflexivity.
Qed.

(** X19.  When every matching source that parses is a well-formed table
    with distinct labels and at most one name of the water level, a run
    raises nothing: it either reports failure and leaves the directory as
    it is, or writes a well-formed table whose columns are exactly the
    canonical ones. *)
Theorem X19_clean_sources_combine
  (content : Type) (read_csv : content -> result DataFrame)
  (to_csv : DataFrame -> content) (d : directory content) :
  forallb (fun f =>
             negb (glob_match (fst f)) ||
             match read_csv (snd f) with
             | Ok t => well_formed t && negb (has_dup (columns t)) &&
                       (List.length (filter is_level_alias (columns t)) <=? 1)%nat
             | Raise _ => true
             end) d = true ->
  combine_and_clean_data read_csv to_csv (Some d) = Ok (Some d, None)
  \/ exists df,
       combine_and_clean_data read_csv to_csv (Some d) =
         Ok (Some (write_file output_name (to_csv df) d), Some output_name) /\
       columns df = cols /\ well_formed df = true.
Proof.
  intros Hclean. rewrite (combine_unfold content read_csv to_csv d).
  assert (Hframes : forall out,
            In out (process_all read_csv
                      (filter (fun f => glob_match (fst f)) d)) ->
            columns out = cols /\ well_formed out = true).
  { intros out Hout.
    destruct (processed_from content read_csv d out Hout)
      as [f [t [Hin [G [Er En]]]]].
    rewrite forallb_forall in Hclean. specialize (Hclean f Hin).
    rewrite G, Er in Hclean. cbn [negb orb] in Hclean.
    apply andb_true_iff in Hclean. destruct Hclean as [Hclean Ha].
    apply andb_true_iff in Hclean. destruct Hclean as [Hwf Hnd].
    apply negb_true_iff, has_dup_NoDup in Hnd. apply Nat.leb_le in Ha.
    rewrite (normalize_canonical _ t Hwf Hnd Ha) in En. injection En as <-.
    split; [reflexivity | apply canonical_frame_well_formed]. }
  destruct (process_all read_csv (filter (fun f => glob_match (fst f)) d))
    as [|g gs] eqn:EP; [now left|].
  right.
  rewrite (concat_same_columns (g :: gs) cols);
    [|discriminate | intros f Hf; exact (proj1 (Hframes f Hf))].
  cbn [bind]. eexists. split; [reflexivity|]. split; [reflexivity|].
  apply well_formed_Forall. apply Forall_forall. cbn [rows columns].
  intros r Hr. apply in_flat_map in Hr. destruct Hr as [f [Hf Hr]].
  destruct (Hframes f Hf) as [Hc Hw].
  apply well_formed_Forall in Hw. rewrite Forall_forall in Hw.
  rewrite <- Hc. now apply Hw.
Qed.

Lemma X19_clean_sources_combine_witness :
  forallb (fun f =>
             negb (glob_match (fst f)) ||
             match stub_read (snd f) with
             | Ok t => well_formed t && negb (has_dup (columns t)) &&
                       (List.length (filter is_level_alias (columns t)) <=? 1)%nat
             | Raise _ => true
             end) three_files = true /\
  (combine_and_clean_data stub_read stub_write (Some three_files) =
     Ok (Some three_files, None)
   \/ exists df,
        combine_and_clean_data stub_read stub_write (Some three_files) =
          Ok (Some (write_file output_name (stub_write df) three_files),
              Some output_name) /\
        columns df = cols /\ well_formed df = true).
Proof.
  split; [reflexivity|].
  exact (X19_clean_sources_combine (option DataFrame) stub_read stub_write
           three_files eq_refl).
Defined.
